(** * Verification model of the Fortran ODE solver wrapper

    Shallow embedding of [python/ode_solver.py]: the solver handle
    ([FortranODESolver.__init__]), the solve pipeline
    ([FortranODESolver.solve]: run the executable, parse its stdout),
    the CSV writer ([FortranODESolver.solve_to_file]) and the batch driver
    ([parameter_sweep]).

    Python strings are modelled as [string], read as sequences of code
    points below 256.  Exceptions are values of [exn]; code that touches the
    operating system runs in a small state-and-error monad over [World]. *)

From Stdlib Require Import ZArith NArith Ascii String DecimalString List Bool Lia.
From stdpp Require Import base gmap strings.
Import ListNotations.

Local Open Scope string_scope.
Local Open Scope list_scope.

#[local] Arguments String.append !s1 s2 : simpl nomatch.

(** ** Python string builtins used by the wrapper *)

Module PyStr.

(** [str.isspace] on one code point below 256: TAB..CR, FS..US, SPACE,
    NEL and NBSP. *)
Definition isspace (c : ascii) : bool :=
  let n := N_of_ascii c in
  (((9 <=? n) && (n <=? 13)) || ((28 <=? n) && (n <=? 31)) ||
   (n =? 32) || (n =? 133) || (n =? 160))%N.

Fixpoint lstrip (s : string) : string :=
  match s with
  | EmptyString => EmptyString
  | String c s' => if isspace c then lstrip s' else s
  end.

Fixpoint rstrip (s : string) : string :=
  match s with
  | EmptyString => EmptyString
  | String c s' =>
      match rstrip s' with
      | EmptyString => if isspace c then EmptyString else String c EmptyString
      | r => String c r
      end
  end.

(** [s.strip()] *)
Definition strip (s : string) : string := lstrip (rstrip s).

(** [s.split(sep)] for a one-character separator: always at least one
    field, empty fields kept. *)
Fixpoint split (sep : ascii) (s : string) : list string :=
  match s with
  | EmptyString => [EmptyString]
  | String c s' =>
      if Ascii.eqb c sep then EmptyString :: split sep s'
      else match split sep s' with
           | h :: t => String c h :: t
           | [] => [String c EmptyString]
           end
  end.

(** [sep.join(parts)] *)
Fixpoint join (sep : string) (parts : list string) : string :=
  match parts with
  | [] => EmptyString
  | [p] => p
  | p :: rest => p +:+ sep +:+ join sep rest
  end.

(** [s.startswith(p)] *)
Fixpoint startswith (s p : string) : bool :=
  match p with
  | EmptyString => true
  | String a p' =>
      match s with
      | String b s' => Ascii.eqb b a && startswith s' p'
      | EmptyString => false
      end
  end.

(** Truth value of a string: [if line] *)
Definition truthy (s : string) : bool := negb (String.eqb s EmptyString).

(** [c in s] *)
Fixpoint contains (c : ascii) (s : string) : bool :=
  match s with
  | EmptyString => false
  | String x s' => Ascii.eqb x c || contains c s'
  end.

Fixpoint all_space (s : string) : bool :=
  match s with
  | EmptyString => true
  | String c s' => isspace c && all_space s'
  end.

End PyStr.

Definition NL : ascii := ascii_of_nat 10.
Definition CR : ascii := ascii_of_nat 13.
Definition COMMA : ascii := ","%char.

(** ** The float builtin

    [float] is Python's built-in type; the wrapper only converts text to
    floats ([float(s)]), prints them ([str(x)], through [csv.writer]) and
    names three literals.  The development is generic in these operations;
    [DecFloat] below is the instance used to run the model. *)

Class PyFloat := {
  float : Type;
  (** [float(s)]: [inl msg] stands for [ValueError(msg)] *)
  float_of_str : string -> string + float;
  (** [str(x)] *)
  float_str : float -> string;
  (** the float with the value of a small integer: the literals [0.0],
      [1.0], [10.0] *)
  float_of_Z : Z -> float;
}.

(** ** Exceptions *)

Inductive exn_class :=
| FileNotFoundError | RuntimeError | ValueError | TypeError
| OSError | IsADirectoryError | UnicodeDecodeError.

Inductive exn :=
| TimeoutExpired                                   (* subprocess.TimeoutExpired *)
| CalledProcessError (returncode : Z) (stderr : string)
| Exn (cls : exn_class) (msg : string).            (* any other, with str(e) *)

(** [str(e)] as used by the catch-all handler of [solve]; that handler is
    reached only by exceptions built with [Exn]. *)
Definition exn_str (e : exn) : string :=
  match e with
  | Exn _ msg => msg
  | TimeoutExpired => "timed out"
  | CalledProcessError _ _ => "non-zero exit status"
  end.

Definition result (A : Type) : Type := exn + A.

(** ** OutputParser: lines 103-113 of [solve] *)

Section Parser.
Context {F : PyFloat}.

(** [[line for line in lines if line and not line.strip().startswith("t,y")]] *)
Definition data_lines (lines : list string) : list string :=
  List.filter
    (fun line => PyStr.truthy line &&
                 negb (PyStr.startswith (PyStr.strip line) "t,y"))
    lines.

(** The [for line in data_lines] loop, threading the two accumulators;
    [float()] raising [ValueError] leaves the loop. *)
Fixpoint parse_rows (lines : list string) (t_vals y_vals : list float)
  : result (list float * list float) :=
  match lines with
  | [] => inr (t_vals, y_vals)
  | line :: rest =>
      match PyStr.split COMMA (PyStr.strip line) with
      | [p0; p1] =>
          match float_of_str p0 with
          | inl msg => inl (Exn ValueError msg)
          | inr t =>
              let t_vals := t_vals ++ [t] in
              match float_of_str p1 with
              | inl msg => inl (Exn ValueError msg)
              | inr y => parse_rows rest t_vals (y_vals ++ [y])
              end
          end
      | _ => parse_rows rest t_vals y_vals
      end
  end.

Definition parse_lines (lines : list string) : result (list float * list float) :=
  parse_rows (data_lines lines) [] [].

(** From [result.stdout] to [(t_vals, y_vals)]. *)
Definition parse_output (stdout : string) : result (list float * list float) :=
  parse_lines (PyStr.split NL (PyStr.strip stdout)).

End Parser.

(** ** A float model to run the wrapper on

    Floats as the exact decimal values their text denotes: a finite value is
    [(-1)^neg * mant * 10^exp] with [mant] free of trailing zeros.  The text
    [float()] accepts and rejects is CPython's; the rounding of a decimal to
    the nearest binary64 value is not modelled, so two texts that CPython
    rounds to one float may stay apart here (and [Nan] is equal to itself). *)

Module DecFloat.

Inductive dec :=
| Nan
| Inf (neg : bool)
| Fin (neg : bool) (mant : N) (exp : Z).

Definition digit_val (c : ascii) : option N :=
  let n := N_of_ascii c in
  if ((48 <=? n) && (n <=? 57))%N then Some (n - 48)%N else None.

(** More digits of a digit part; an underscore counts only between two
    digits. Returns mantissa, number of digits read, and the rest. *)
Fixpoint digits_tail (s : string) (acc : N) (cnt : nat) : N * nat * string :=
  match s with
  | EmptyString => (acc, cnt, s)
  | String c s' =>
      match digit_val c with
      | Some d => digits_tail s' (10 * acc + d)%N (S cnt)
      | None =>
          if Ascii.eqb c "_" then
            match s' with
            | String c2 s'' =>
                match digit_val c2 with
                | Some d => digits_tail s'' (10 * acc + d)%N (S cnt)
                | None => (acc, cnt, s)
                end
            | EmptyString => (acc, cnt, s)
            end
          else (acc, cnt, s)
      end
  end.

Definition digitpart (s : string) (acc : N) (cnt : nat)
  : option (N * nat * string) :=
  match s with
  | String c s' =>
      match digit_val c with
      | Some d => Some (digits_tail s' (10 * acc + d)%N (S cnt))
      | None => None
      end
  | EmptyString => None
  end.

(** Optional sign: [(negative, rest)]. *)
Definition sign (s : string) : bool * string :=
  match s with
  | String "-" s' => (true, s')
  | String "+" s' => (false, s')
  | _ => (false, s)
  end.

(** [[eE][+-]?digitpart] up to the end of the text, or nothing at all. *)
Definition exponent (s : string) : option Z :=
  match s with
  | EmptyString => Some 0%Z
  | String c s' =>
      if Ascii.eqb c "e" || Ascii.eqb c "E" then
        let '(neg, r) := sign s' in
        match digitpart r 0 0 with
        | Some (e, _, EmptyString) =>
            Some (if neg then - Z.of_N e else Z.of_N e)%Z
        | _ => None
        end
      else None
  end.

(** Drop trailing decimal zeros of the mantissa. *)
Fixpoint normalize (fuel : nat) (m : N) (e : Z) : N * Z :=
  match fuel with
  | O => (m, e)
  | S fuel' =>
      if (m =? 0)%N then (0%N, 0%Z)
      else if (m mod 10 =? 0)%N then normalize fuel' (m / 10)%N (e + 1)%Z
      else (m, e)
  end.

Definition finite (neg : bool) (m : N) (cnt : nat) (e : Z) : dec :=
  let '(m', e') := normalize (S cnt) m e in Fin neg m' e'.

(** An unsigned decimal number:
    [digitpart ["." [digitpart]] [exponent] | "." digitpart [exponent]]. *)
Definition number (neg : bool) (s : string) : option dec :=
  let fraction (m : N) (cnt : nat) (r : string) (need_digit : bool) :=
    match digitpart r m cnt with
    | Some (m', cnt', r') =>
        match exponent r' with
        | Some e => Some (finite neg m' cnt' (e - Z.of_nat (cnt' - cnt)))
        | None => None
        end
    | None =>
        if need_digit then None
        else match exponent r with
             | Some e => Some (finite neg m cnt e)
             | None => None
             end
    end in
  match s with
  | String "." r => fraction 0%N O r true
  | _ =>
      match digitpart s 0 0 with
      | Some (m, cnt, String "." r) => fraction m cnt r false
      | Some (m, cnt, r) =>
          match exponent r with
          | Some e => Some (finite neg m cnt e)
          | None => None
          end
      | None => None
      end
  end.

Definition lower (c : ascii) : ascii :=
  let n := N_of_ascii c in
  if ((65 <=? n) && (n <=? 90))%N then ascii_of_N (n + 32) else c.

Fixpoint lowercase (s : string) : string :=
  match s with
  | EmptyString => EmptyString
  | String c s' => String (lower c) (lowercase s')
  end.

Definition parse (s : string) : option dec :=
  let '(neg, r) := sign (PyStr.strip s) in
  let l := lowercase r in
  if String.eqb l "inf" || String.eqb l "infinity" then Some (Inf neg)
  else if String.eqb l "nan" then Some Nan
  else number neg r.

(** [float(s)]; the message is CPython's for a text without quotes or
    control characters. *)
Definition of_str (s : string) : string + dec :=
  match parse s with
  | Some x => inr x
  | None => inl ("could not convert string to float: '" +:+ s +:+ "'")
  end.

Definition of_Z (z : Z) : dec :=
  finite (z <? 0)%Z (Z.abs_N z) (N.to_nat (N.log2 (Z.abs_N z))) 0.

Definition digits_of (m : N) : string :=
  NilEmpty.string_of_uint (N.to_uint m).

Fixpoint zeros (n : nat) : string :=
  match n with O => EmptyString | S n' => String "0" (zeros n') end.

Definition take (n : nat) (s : string) : string := String.substring 0 n s.
Definition drop (n : nat) (s : string) : string :=
  String.substring n (String.length s - n) s.

(** [repr(x)], CPython's short format: exponent form when the decimal
    point falls more than 16 places right or 4 places left of the first
    digit. *)
Definition to_str (x : dec) : string :=
  match x with
  | Nan => "nan"
  | Inf neg => if neg then "-inf" else "inf"
  | Fin neg m e =>
      let sgn := if neg then "-" else "" in
      if (m =? 0)%N then sgn +:+ "0.0" else
      let ds := digits_of m in
      let n := Z.of_nat (String.length ds) in
      let decpt := (n + e)%Z in
      if ((decpt <=? -4) || (16 <? decpt))%Z then
        let x10 := (decpt - 1)%Z in
        let ex := digits_of (Z.abs_N x10) in
        sgn +:+ take 1 ds +:+
        (if (1 <? n)%Z then "." +:+ drop 1 ds else "") +:+
        "e" +:+ (if (x10 <? 0)%Z then "-" else "+") +:+
        (if (Z.abs x10 <? 10)%Z then "0" +:+ ex else ex)
      else if (decpt <=? 0)%Z then
        sgn +:+ "0." +:+ zeros (Z.to_nat (- decpt)) +:+ ds
      else if (decpt <? n)%Z then
        sgn +:+ take (Z.to_nat decpt) ds +:+ "." +:+ drop (Z.to_nat decpt) ds
      else
        sgn +:+ ds +:+ zeros (Z.to_nat (decpt - n)) +:+ ".0"
  end.

#[export] Instance model : PyFloat :=
  {| float := dec; float_of_str := of_str; float_str := to_str;
     float_of_Z := of_Z |}.

End DecFloat.

(** ** The operating system as seen by the wrapper *)

Inductive node := Dir | File (text : string).

(** What the operating system does with a command handed to
    [subprocess.run].  The spawn fails; or a child runs on its own and exits
    after a number of milliseconds ([None]: never), its two captured pipes at
    end-of-file by then; or the child exits after some milliseconds while a
    process it started keeps the captured pipes open for longer ([None]: for
    ever).  [stdout] and [stderr] are the texts as [subprocess.run] hands
    them over under [text=True]: decoded, with CR LF and CR already turned
    into LF. *)
Inductive proc_behaviour :=
| SpawnFails (cls : exn_class) (msg : string)
| Runs (exits_after : option N) (returncode : Z) (stdout stderr : string)
| Lingers (exits_after : N) (pipes_closed_after : option N)
          (returncode : Z) (stdout stderr : string).

Record World := mkWorld {
  fs : gmap string node;
  (** [open(path, "w")] refused by the system (permissions, missing
      directory): the [OSError] message *)
  open_error : string -> option string;
  (** [Path(__file__).parent.parent / "build" / "ode_solver"] *)
  module_build : string;
  (** behaviour of the n-th command handed to [subprocess.run] *)
  os_exec : nat -> list string -> proc_behaviour;
  (** every command handed to [subprocess.run] so far, oldest first *)
  commands : list (list string);
  (** child processes currently running *)
  children : nat;
}.

Definition path_exists (w : World) (p : string) : bool :=
  match fs w !! p with Some _ => true | None => false end.

Definition log_command (args : list string) (w : World) : World :=
  mkWorld (fs w) (open_error w) (module_build w) (os_exec w)
          (commands w ++ [args]) (children w).

Definition child_started (w : World) : World :=
  mkWorld (fs w) (open_error w) (module_build w) (os_exec w)
          (commands w) (S (children w)).

Definition child_gone (w : World) : World :=
  mkWorld (fs w) (open_error w) (module_build w) (os_exec w)
          (commands w) (Nat.pred (children w)).

Definition store_file (p text : string) (w : World) : World :=
  mkWorld (<[p := File text]> (fs w)) (open_error w) (module_build w)
          (os_exec w) (commands w) (children w).

(** ** State and exception monad *)

Definition M (A : Type) : Type := World -> result A * World.

Definition ret {A} (a : A) : M A := fun w => (inr a, w).
Definition raise {A} (e : exn) : M A := fun w => (inl e, w).
Definition lift {A} (r : result A) : M A := fun w => (r, w).
Definition bind {A B} (m : M A) (k : A -> M B) : M B :=
  fun w => match m w with
           | (inl e, w') => (inl e, w')
           | (inr a, w') => k a w'
           end.
(** [try: m  except Exception as e: h e] *)
Definition try_except {A} (m : M A) (h : exn -> M A) : M A :=
  fun w => match m w with
           | (inl e, w') => h e w'
           | (inr a, w') => (inr a, w')
           end.

Notation "'let*' x ':=' m 'in' k" := (bind m (fun x => k))
  (at level 10, x pattern, m at level 100, k at level 200).

(** ** pathlib and subprocess *)

(** [str(Path(s))] on POSIX: empty and [.] components dropped, one leading
    slash kept (two when there are exactly two). *)
Definition Path (s : string) : string :=
  let parts :=
    List.filter (fun c => negb (String.eqb c "" || String.eqb c "."))
                (PyStr.split "/" s) in
  let root :=
    if PyStr.startswith s "//" && negb (PyStr.startswith s "///") then "//"
    else if PyStr.startswith s "/" then "/" else "" in
  let p := root +:+ PyStr.join "/" parts in
  if String.eqb p "" then "." else p.

Record CompletedProcess := {
  cp_returncode : Z;
  cp_stdout : string;
  cp_stderr : string;
}.

Definition exits_within (d : option N) (timeout_s : N) : bool :=
  match d with
  | Some ms => (ms <=? 1000 * timeout_s)%N
  | None => false
  end.

(** How a run ends for a caller that allows it [timeout_s] seconds. *)
Inductive run_end :=
| NotStarted (cls : exn_class) (msg : string)
| Overrun
| Finished (returncode : Z) (stdout stderr : string).

(** [Popen.communicate(timeout=..)] reads both captured pipes to
    end-of-file and then waits for the child, all before the deadline: the
    run is over in time only when the child has exited and nothing holds
    the pipes open any more. *)
Definition run_end_of (b : proc_behaviour) (timeout_s : N) : run_end :=
  match b with
  | SpawnFails cls msg => NotStarted cls msg
  | Runs d rc out err =>
      if exits_within d timeout_s then Finished rc out err else Overrun
  | Lingers d eof rc out err =>
      if exits_within (Some d) timeout_s && exits_within eof timeout_s
      then Finished rc out err else Overrun
  end.

(** [subprocess.run(args, capture_output=True, text=True, timeout=..,
    check=..)] as CPython has it: the output is read and the child waited
    for up to the timeout; when the timeout expires the child is killed and
    waited for, then [TimeoutExpired] is raised; with [check] a non-zero
    exit code raises [CalledProcessError]. *)
Definition subprocess_run (args : list string) (timeout_s : N) (check : bool)
  : M CompletedProcess :=
  fun w =>
    let w0 := log_command args w in
    match run_end_of (os_exec w (length (commands w)) args) timeout_s with
    | NotStarted cls msg => (inl (Exn cls msg), w0)
    | Finished rc out err =>
        let w1 := child_started w0 in
        let w2 := child_gone w1 in
        if check && negb (rc =? 0)%Z
        then (inl (CalledProcessError rc err), w2)
        else (inr {| cp_returncode := rc; cp_stdout := out; cp_stderr := err |}, w2)
    | Overrun =>
        let w1 := child_started w0 in
        let w2 := child_gone w1 in   (* process.kill(); process.wait() *)
        (inl TimeoutExpired, w2)
    end.

(** [open(path, "w")], the writes and the close, as one step. *)
Definition write_text (p text : string) : M unit :=
  fun w =>
    match fs w !! p with
    | Some Dir => (inl (Exn IsADirectoryError ("Is a directory: " +:+ p)), w)
    | _ =>
        match open_error w p with
        | Some msg => (inl (Exn OSError msg), w)
        | None => (inr tt, store_file p text w)
        end
    end.

(** ** csv.writer, default dialect *)

Definition DQUOTE : ascii := ascii_of_nat 34.

Definition csv_needs_quote (s : string) : bool :=
  PyStr.contains COMMA s || PyStr.contains DQUOTE s ||
  PyStr.contains CR s || PyStr.contains NL s.

Fixpoint csv_double_quotes (s : string) : string :=
  match s with
  | EmptyString => EmptyString
  | String c s' =>
      if Ascii.eqb c DQUOTE then String c (String c (csv_double_quotes s'))
      else String c (csv_double_quotes s')
  end.

Definition csv_field (s : string) : string :=
  if csv_needs_quote s
  then String DQUOTE (csv_double_quotes s) +:+ String DQUOTE ""
  else s.

(** [writer.writerow(fields)]: the text of one row, ended by CR LF. *)
Definition csv_row (fields : list string) : string :=
  PyStr.join "," (map csv_field fields) +:+ String CR (String NL "").

(** ** The wrapper *)

(** A Python number: a float or an int. *)
Inductive number_of (A : Type) : Type :=
| PyFloatV (x : A)
| PyIntV (n : Z).

Arguments PyFloatV {A} x.
Arguments PyIntV {A} n.

Section Wrapper.
Context {F : PyFloat}.

(** The values passed for the parameters of [solve]: floats and ints. *)
Definition pyvalue : Type := number_of float.

(** A keyword-argument dict: keys in insertion order, no key twice. *)
Definition kwargs := list (string * pyvalue).

Fixpoint dict_get (k : string) (d : kwargs) : option pyvalue :=
  match d with
  | [] => None
  | (k', v) :: d' => if String.eqb k k' then Some v else dict_get k d'
  end.

(** [d[k] = v] *)
Fixpoint dict_set (k : string) (v : pyvalue) (d : kwargs) : kwargs :=
  match d with
  | [] => [(k, v)]
  | (k', v') :: d' =>
      if String.eqb k k' then (k, v) :: d' else (k', v') :: dict_set k v d'
  end.

Record FortranODESolver := { executable_path : string }.

Definition search_paths (w : World) : list string :=
  [Path "build/ode_solver"; Path "./ode_solver"; module_build w].

(** [FortranODESolver.__init__] *)
Definition init (executable_path0 : option string) : M FortranODESolver :=
  fun w =>
    let located :=
      match executable_path0 with
      | Some p => inr p
      | None =>
          match List.find (path_exists w) (search_paths w) with
          | Some p => inr p
          | None =>
              inl (Exn FileNotFoundError
                     ("Could not find ode_solver executable. " +:+
                      "Have you run 'cmake .. && cmake --build .' in the build directory?"))
          end
      end in
    match located with
    | inl e => (inl e, w)
    | inr p =>
        let self := {| executable_path := Path p |} in
        if negb (path_exists w self.(executable_path))
        then (inl (Exn FileNotFoundError
                     ("Executable not found: " +:+ self.(executable_path))), w)
        else (inr self, w)
    end.

(** The [except] clauses of [solve], in order: what is raised in place of
    a caught exception. *)
Definition solve_except (e : exn) : exn :=
  match e with
  | TimeoutExpired =>
      Exn RuntimeError "Fortran solver timed out"
  | CalledProcessError _ stderr =>
      Exn RuntimeError ("Fortran solver failed: " +:+ stderr)
  | _ =>
      Exn RuntimeError ("Error running Fortran solver: " +:+ exn_str e)
  end.

(** [FortranODESolver.solve] *)
Definition solve (self : FortranODESolver) (t0 tf y0 n_steps : pyvalue)
  : M (list float * list float) :=
  try_except
    (let* result_ := subprocess_run [self.(executable_path)] 30 true in
     lift (parse_output result_.(cp_stdout)))
    (fun e => raise (solve_except e)).

Definition solve_params : list string := ["t0"; "tf"; "y0"; "n_steps"].

Definition is_solve_param (k : string) : bool :=
  existsb (String.eqb k) solve_params.

(** [self.solve] called with a keyword dict: a key that is no parameter of [solve] is a
    [TypeError]; missing keys take the defaults of the signature. *)
Definition call_solve (self : FortranODESolver) (kw : kwargs)
  : M (list float * list float) :=
  match List.find (fun kv => negb (is_solve_param (fst kv))) kw with
  | Some (k, _) =>
      raise (Exn TypeError
               ("FortranODESolver.solve() got an unexpected keyword argument '"
                +:+ k +:+ "'"))
  | None =>
      solve self
            (default (PyFloatV (float_of_Z 0)) (dict_get "t0" kw))
            (default (PyFloatV (float_of_Z 10)) (dict_get "tf" kw))
            (default (PyFloatV (float_of_Z 1)) (dict_get "y0" kw))
            (default (PyIntV 100) (dict_get "n_steps" kw))
  end.

Definition csv_text (t_vals y_vals : list float) : string :=
  csv_row ["t"; "y"] +:+
  fold_right String.append ""
    (map (fun '(t, y) => csv_row [float_str t; float_str y])
         (combine t_vals y_vals)).

(** [FortranODESolver.solve_to_file] *)
Definition solve_to_file (self : FortranODESolver) (output_path : string)
           (kw : kwargs) : M string :=
  let* (t_vals, y_vals) := call_solve self kw in
  let output_path := Path output_path in
  let* _ := write_text output_path (csv_text t_vals y_vals) in
  ret output_path.

(** The [for value in param_values] loop of [parameter_sweep]. *)
Fixpoint sweep_loop (param_name : string) (values : list pyvalue)
         (solver : FortranODESolver) (base_kwargs : kwargs)
         (results : list (pyvalue * list float * list float))
  : M (list (pyvalue * list float * list float)) :=
  match values with
  | [] => ret results
  | value :: rest =>
      let kw := dict_set param_name value base_kwargs in
      let* (t_vals, y_vals) := call_solve solver kw in
      sweep_loop param_name rest solver base_kwargs
                 (results ++ [(value, t_vals, y_vals)])
  end.

(** [parameter_sweep] *)
Definition parameter_sweep (param_name : string) (param_values : list pyvalue)
           (solver : FortranODESolver) (base_kwargs : kwargs)
  : M (list (pyvalue * list float * list float)) :=
  sweep_loop param_name param_values solver base_kwargs [].

End Wrapper.

(** ** Vocabulary of the statements *)

Definition no_newline (s : string) : bool := negb (PyStr.contains NL s).

(** The lines of a text, as the parser sees them once blank ones are gone. *)
Definition clean (lines : list string) : list string :=
  List.filter PyStr.truthy (map PyStr.strip lines).

(** Append one character to the last line. *)
Fixpoint snoc_last (c : ascii) (lines : list string) : list string :=
  match lines with
  | [] => []
  | [l] => [l +:+ String c ""]
  | l :: rest => l :: snoc_last c rest
  end.

Section ParserVocabulary.
Context {F : PyFloat}.

(** The comma-separated fields of a line, as the loop splits it. *)
Definition fields (line : string) : list string :=
  PyStr.split COMMA (PyStr.strip line).

Definition two_fields (line : string) : bool :=
  Nat.eqb (length (fields line)) 2.

(** The header test of the parser. *)
Definition header_like (line : string) : bool :=
  PyStr.startswith (PyStr.strip line) "t,y".

(** A [float,float] line carrying the sample [(t, y)]. *)
Definition well_formed (line : string) (t y : float) : Prop :=
  exists a b, fields line = [a; b] /\
              float_of_str a = inr t /\ float_of_str b = inr y.

(** A line with exactly two fields, one of which [float()] rejects. *)
Definition rejected (line : string) : Prop :=
  exists a b, fields line = [a; b] /\
              ((exists m, float_of_str a = inl m) \/
               (exists m, float_of_str b = inl m)).

(** [merged sample lines ss]: [lines] is an interleaving of header-like
    lines, lines without exactly two fields, and sample lines whose
    samples, in order, are [ss]. *)
Inductive merged (sample : string -> float -> float -> Prop)
  : list string -> list (float * float) -> Prop :=
| merged_nil : merged sample [] []
| merged_header l ls ss :
    header_like l = true -> merged sample ls ss -> merged sample (l :: ls) ss
| merged_dropped l ls ss :
    two_fields l = false -> merged sample ls ss -> merged sample (l :: ls) ss
| merged_sample l t y ls ss :
    sample l t y -> merged sample ls ss ->
    merged sample (l :: ls) ((t, y) :: ss).

(** Characters of the text CPython prints for a float: digits, sign,
    point, exponent mark and the letters of [inf] and [nan]. *)
Definition float_char (c : ascii) : bool :=
  let n := N_of_ascii c in
  (((48 <=? n) && (n <=? 57)) || (n =? 43) || (n =? 45) || (n =? 46) ||
   (n =? 101) || (n =? 105) || (n =? 110) || (n =? 102) || (n =? 97))%N.

Fixpoint all_chars (p : ascii -> bool) (s : string) : bool :=
  match s with
  | EmptyString => true
  | String c s' => p c && all_chars p s'
  end.

Definition not_space (c : ascii) : bool := negb (PyStr.isspace c).

Definition float_text (s : string) : bool :=
  PyStr.truthy s && all_chars float_char s.

(** [x] prints as float text that [float()] reads back as [x]. *)
Definition prints_back (x : float) : Prop :=
  float_text (float_str x) = true /\ float_of_str (float_str x) = inr x.

End ParserVocabulary.

Section WrapperVocabulary.
Context {F : PyFloat}.

(** The failure [solve] raises on a timeout. *)
Definition timeout_error : exn := Exn RuntimeError "Fortran solver timed out".

(** The run started by the next [solve] call is not over within the 30
    seconds [solve] allows: the backend has not exited, or its captured
    pipes are still held open. *)
Definition backend_overruns (w : World) (self : FortranODESolver) : bool :=
  match run_end_of (os_exec w (length (commands w)) [self.(executable_path)])
                   30 with
  | Overrun => true
  | _ => false
  end.

(** The backend process started by the next [solve] call has not exited
    within those 30 seconds. *)
Definition backend_exits_late (w : World) (self : FortranODESolver) : bool :=
  match os_exec w (length (commands w)) [self.(executable_path)] with
  | Runs d _ _ _ => negb (exits_within d 30)
  | Lingers d _ _ _ _ => negb (exits_within (Some d) 30)
  | SpawnFails _ _ => false
  end.

(** The machine after a backend run for [self] has come and gone. *)
Definition after_run (self : FortranODESolver) (w : World) : World :=
  child_gone (child_started (log_command [self.(executable_path)] w)).

(** Every solve call of a sweep over [values], started in [w], succeeds. *)
Fixpoint solves_succeed (param_name : string) (values : list pyvalue)
         (solver : FortranODESolver) (base_kwargs : kwargs) (w : World)
  : Prop :=
  match values with
  | [] => True
  | value :: rest =>
      exists r w',
        call_solve solver (dict_set param_name value base_kwargs) w
        = (inr r, w') /\
        solves_succeed param_name rest solver base_kwargs w'
  end.

(** The line [writer.writerow([t, y])] leaves in the file, up to the
    newline. *)
Definition row_line (t y : float) : string :=
  float_str t +:+ "," +:+ float_str y +:+ String CR "".

(** The lines of the file [solve_to_file] writes. *)
Definition file_lines (t_vals y_vals : list float) : list string :=
  ("t,y" +:+ String CR "")
    :: map (fun '(t, y) => row_line t y) (combine t_vals y_vals) ++ [""].

(** First component of a sweep entry: the override value. *)
Definition entry_value (e : pyvalue * list float * list float) : pyvalue :=
  fst (fst e).

End WrapperVocabulary.

(** ** A concrete machine for the examples *)

Module Demo.

Definition lines_text (lines : list string) : string :=
  PyStr.join (String NL "") lines.

(** The backend's usual output, as in the specification's example. *)
Definition healthy_stdout : string :=
  lines_text ["t,y"; "0.000000,1.000000"; "1.000000,0.606531"; ""].

(** Output with a two-field line that is not numeric. *)
Definition garbled_stdout : string :=
  lines_text ["t,y"; "0.000000,1.000000"; "abc,def"; ""].

Definition files : gmap string node :=
  <["build/ode_solver" := File "ELF"]> (<["build" := Dir]> ∅).

Definition machine (exec : nat -> list string -> proc_behaviour) : World :=
  mkWorld files (fun _ => None) "/srv/app/build/ode_solver" exec [] 0.

Definition healthy : World :=
  machine (fun _ _ => Runs (Some 120%N) 0 healthy_stdout "").

Definition garbled : World :=
  machine (fun _ _ => Runs (Some 120%N) 0 garbled_stdout "").

(** A backend that never exits. *)
Definition hung : World :=
  machine (fun _ _ => Runs None 0 "" "").

(** The second run exits with code 1. *)
Definition flaky : World :=
  machine (fun n _ =>
             if Nat.eqb n 1 then Runs (Some 80%N) 1 "" "division by zero"
             else Runs (Some 120%N) 0 healthy_stdout "").

Definition solver : FortranODESolver :=
  {| executable_path := "build/ode_solver" |}.

Definition f (z : Z) : @pyvalue DecFloat.model :=
  PyFloatV (DecFloat.of_Z z).
Definition half : @pyvalue DecFloat.model :=
  PyFloatV (DecFloat.Fin false 5 (-1)).

End Demo.

(** ** Vocabulary of the further properties *)

Section FurtherVocabulary.
Context {F : PyFloat}.

(** The backend behaves the same at every call: what the system does with
    the command of [self] does not depend on how many commands ran before. *)
Definition steady (w : World) (self : FortranODESolver) : Prop :=
  forall n m : nat,
    os_exec w n [self.(executable_path)] = os_exec w m [self.(executable_path)].

(** [sep.join] of two parsed series. *)
Definition series_app (r1 r2 : list float * list float)
  : list float * list float :=
  (fst r1 ++ fst r2, snd r1 ++ snd r2).

(** Some key of the dict is no parameter of [solve]. *)
Definition has_foreign_key (kw : kwargs) : bool :=
  existsb (fun kv => negb (is_solve_param (fst kv))) kw.

End FurtherVocabulary.

Module Demo2.

(** A backend that exits at once with code 3, after printing a header. *)
Definition broken : World :=
  Demo.machine (fun _ _ => Runs (Some 5%N) 3 "t,y" "segmentation fault").

(** A backend that prints its table and exits with code 0 after 120 ms,
    leaving behind a process that never closes the pipes it inherited. *)
Definition lingering : World :=
  Demo.machine (fun _ _ => Lingers 120%N None 0 Demo.healthy_stdout "").

End Demo2.

(** ** The command-line layer ([python/cli.py])

    The two commands are modelled as the functions click calls once it has
    converted the options.  What [click.echo] prints is kept, line by line,
    beside the machine. *)

Record Session := mkSession {
  machine : World;
  (** lines printed by [click.echo], oldest first *)
  console : list string;
  (** [mkdir] refused by the system: the [OSError] message *)
  mkdir_error : string -> option string;
}.

Definition C (A : Type) : Type := Session -> result A * Session.

Definition c_ret {A} (a : A) : C A := fun s => (inr a, s).
Definition c_bind {A B} (m : C A) (k : A -> C B) : C B :=
  fun s => match m s with
           | (inl e, s') => (inl e, s')
           | (inr a, s') => k a s'
           end.
(** Run a step of the wrapper on the machine of the session. *)
Definition on_machine {A} (m : M A) : C A :=
  fun s => let '(r, w') := m (machine s) in
           (r, mkSession w' (console s) (mkdir_error s)).
Definition c_lift {A} (r : result A) : C A := fun s => (r, s).
(** [click.echo(msg)] *)
Definition echo (msg : string) : C unit :=
  fun s => (inr tt, mkSession (machine s) (console s ++ [msg]) (mkdir_error s)).

Notation "'let+' x ':=' m 'in' k" := (c_bind m (fun x => k))
  (at level 10, x pattern, m at level 100, k at level 200).

(** The proper ancestors of a path, outermost first: [a], [a/b] for
    [a/b/c]. [seen] is the part of the path already read. *)
Fixpoint ancestors_from (seen rest : string) : list string :=
  match rest with
  | EmptyString => []
  | String c rest' =>
      if Ascii.eqb c "/"
      then (if all_chars (Ascii.eqb "/") seen then [] else [seen])
           ++ ancestors_from (seen +:+ "/") rest'
      else ancestors_from (seen +:+ String c "") rest'
  end.

Definition ancestors (p : string) : list string := ancestors_from "" p.

Definition is_file (w : World) (p : string) : bool :=
  match fs w !! p with Some (File _) => true | _ => false end.

Definition make_dirs (targets : list string) (w : World) : World :=
  mkWorld (fold_right (fun t m => <[t := Dir]> m) (fs w) targets)
          (open_error w) (module_build w) (os_exec w) (commands w)
          (children w).

(** [p.mkdir(parents=True, exist_ok=True)] for a path [p]: missing
    ancestors and the directory itself are made; a directory already there
    is left alone; a file in the way is an [OSError] ([FileExistsError] or
    [NotADirectoryError]). *)
Definition mkdir_parents (p : string) : C unit :=
  fun s =>
    let w := machine s in
    let targets := ancestors p ++ [p] in
    if String.eqb p "." then (inr tt, s)
    else match List.find (is_file w) targets with
         | Some t => (inl (Exn OSError ("File exists: " +:+ t)), s)
         | None =>
             match mkdir_error s p with
             | Some msg => (inl (Exn OSError msg), s)
             | None =>
                 (inr tt, mkSession (make_dirs targets w) (console s)
                                    (mkdir_error s))
             end
         end.

(** [a / name] for a path [a] and a relative name. *)
Definition path_join (a name : string) : string :=
  if String.eqb a "." then Path name
  else if String.eqb a "/" || String.eqb a "//" then Path (a +:+ name)
  else Path (a +:+ "/" +:+ name).

(** [str(n)] for a length. *)
Definition nat_str (n : nat) : string :=
  NilEmpty.string_of_uint (Nat.to_uint n).

Module Cli.
Section Commands.
Context {F : PyFloat}.

(** [format(x, ".<digits>f")] *)
Variable format_fixed : nat -> float -> string.

Definition format_value (digits : nat) (v : pyvalue) : string :=
  match v with
  | PyFloatV x => format_fixed digits x
  | PyIntV n => format_fixed digits (float_of_Z n)
  end.

(** The [for t, y in zip(t_vals, y_vals)] loop of [solve]. *)
Fixpoint echo_rows (rows : list (float * float)) : C unit :=
  match rows with
  | [] => c_ret tt
  | (t, y) :: rest =>
      let+ _ := echo (format_fixed 6 t +:+ "," +:+ format_fixed 6 y) in
      echo_rows rest
  end.

(** The [solve] command. *)
Definition solve (t0 tf y0 : float) (steps : Z) (output : option string)
  : C unit :=
  let+ solver := on_machine (init None) in
  match output with
  | Some (String c o as out) =>
      let+ _ := on_machine
                  (solve_to_file solver (Path out)
                     [("t0", PyFloatV t0); ("tf", PyFloatV tf);
                      ("y0", PyFloatV y0); ("n_steps", PyIntV steps)]) in
      echo ("Results saved to " +:+ out)
  | _ =>
      let+ (t_vals, y_vals) :=
        on_machine (solve solver (PyFloatV t0) (PyFloatV tf)
                      (PyFloatV y0) (PyIntV steps)) in
      let+ _ := echo "t,y" in
      echo_rows (combine t_vals y_vals)
  end.

(** [[float(v.strip()) for v in values.split(",")]] *)
Fixpoint floats_of (texts : list string) : result (list float) :=
  match texts with
  | [] => inr []
  | v :: rest =>
      match float_of_str (PyStr.strip v) with
      | inl msg => inl (Exn ValueError msg)
      | inr x =>
          match floats_of rest with
          | inl e => inl e
          | inr xs => inr (x :: xs)
          end
      end
  end.

Definition sweep_file (output_path param : string) (val : pyvalue) : string :=
  path_join output_path (param +:+ "_" +:+ format_value 3 val +:+ ".csv").

(** The [for val, _, _ in results] loop of [sweep]. *)
Fixpoint save_results (solver : FortranODESolver) (output_path param : string)
         (results : list (pyvalue * list float * list float)) : C unit :=
  match results with
  | [] => c_ret tt
  | (val, _, _) :: rest =>
      let file_path := sweep_file output_path param val in
      let+ _ := on_machine (solve_to_file solver file_path [(param, val)]) in
      save_results solver output_path param rest
  end.

(** The [sweep] command. *)
Definition sweep (param values output_dir : string) : C unit :=
  let output_path := Path output_dir in
  let+ _ := mkdir_parents output_path in
  let+ param_vals := c_lift (floats_of (PyStr.split COMMA values)) in
  let+ solver := on_machine (init None) in
  let+ results :=
    on_machine (parameter_sweep param (map PyFloatV param_vals) solver []) in
  let+ _ := save_results solver output_path param results in
  echo ("Saved " +:+ nat_str (length results) +:+ " results to " +:+ output_dir).

End Commands.
End Cli.

(** Fixed-point printing for [DecFloat], to run the commands: the decimal
    value rounded half-even to the digits asked for.  (CPython rounds the
    binary64 value; the two differ only where the decimal is an exact tie.) *)
Module DecFixed.

Definition pad_left (width : nat) (ds : string) : string :=
  DecFloat.zeros (width - String.length ds) +:+ ds.

Definition scaled (m : N) (shift : Z) : N :=
  if (0 <=? shift)%Z then (m * 10 ^ Z.to_N shift)%N
  else
    let k := (10 ^ Z.to_N (- shift))%N in
    let q := (m / k)%N in
    let r := (m mod k)%N in
    match (2 * r ?= k)%N with
    | Gt => (q + 1)%N
    | Eq => if N.odd q then (q + 1)%N else q
    | Lt => q
    end.

Definition fixed (digits : nat) (x : DecFloat.dec) : string :=
  match x with
  | DecFloat.Nan => "nan"
  | DecFloat.Inf neg => if neg then "-inf" else "inf"
  | DecFloat.Fin neg m e =>
      let q := scaled m (e + Z.of_nat digits) in
      let unit := (10 ^ N.of_nat digits)%N in
      (if neg then "-" else "") +:+
      DecFloat.digits_of (q / unit) +:+
      match digits with
      | O => ""
      | _ => "." +:+ pad_left digits
                      (if (q mod unit =? 0)%N then ""
                       else DecFloat.digits_of (q mod unit))
      end
  end.

Definition session (w : World) : Session := mkSession w [] (fun _ => None).

End DecFixed.

(** * Facts about the string builtins *)

Section StringFacts.

Lemma append_nil_r (s : string) : s +:+ "" = s.
Proof. induction s as [|c s IH]; simpl; [reflexivity | now rewrite IH]. Qed.

Lemma append_assoc (a b c : string) : (a +:+ b) +:+ c = a +:+ (b +:+ c).
Proof. induction a as [|x a IH]; simpl; [reflexivity | now rewrite IH]. Qed.

Lemma lstrip_idem (s : string) : PyStr.lstrip (PyStr.lstrip s) = PyStr.lstrip s.
Proof.
  induction s as [|c s IH]; simpl; [reflexivity|].
  destruct (PyStr.isspace c) eqn:Hc; [exact IH|]. simpl. now rewrite Hc.
Qed.

Lemma rstrip_snoc_space (c : ascii) (s : string) :
  PyStr.isspace c = true -> PyStr.rstrip (s +:+ String c "") = PyStr.rstrip s.
Proof.
  intros Hc. induction s as [|x s IH]; simpl.
  - now rewrite Hc.
  - now rewrite IH.
Qed.

Lemma strip_cons_space (c : ascii) (s : string) :
  PyStr.isspace c = true -> PyStr.strip (String c s) = PyStr.strip s.
Proof.
  intros Hc. unfold PyStr.strip. simpl.
  destruct (PyStr.rstrip s) eqn:Hr; simpl; now rewrite Hc.
Qed.

Lemma strip_snoc_space (c : ascii) (s : string) :
  PyStr.isspace c = true -> PyStr.strip (s +:+ String c "") = PyStr.strip s.
Proof. intros Hc. unfold PyStr.strip. now rewrite rstrip_snoc_space. Qed.

Lemma rstrip_idem (s : string) : PyStr.rstrip (PyStr.rstrip s) = PyStr.rstrip s.
Proof.
  induction s as [|c s IH]; simpl; [reflexivity|].
  destruct (PyStr.rstrip s) as [|y r] eqn:Hr.
  - destruct (PyStr.isspace c) eqn:Hc; simpl; [reflexivity | now rewrite Hc].
  - change (PyStr.rstrip (String c (String y r))) with
      (match PyStr.rstrip (String y r) with
       | "" => if PyStr.isspace c then "" else String c ""
       | r' => String c r'
       end).
    now rewrite IH.
Qed.

(** Stripping on the left keeps a right-stripped string right-stripped. *)
Lemma rstrip_lstrip_fixed (r : string) :
  PyStr.rstrip r = r -> PyStr.rstrip (PyStr.lstrip r) = PyStr.lstrip r.
Proof.
  induction r as [|c r IH]; simpl; [reflexivity|].
  intros H. destruct (PyStr.isspace c) eqn:Hc.
  - apply IH. destruct (PyStr.rstrip r) as [|y r'] eqn:Hr.
    + discriminate H.
    + now inversion H.
  - simpl. rewrite Hc. exact H.
Qed.

Lemma strip_idem (s : string) : PyStr.strip (PyStr.strip s) = PyStr.strip s.
Proof.
  unfold PyStr.strip.
  rewrite (rstrip_lstrip_fixed (PyStr.rstrip s)) by apply rstrip_idem.
  apply lstrip_idem.
Qed.

(** What [rstrip] removes is a run of white space. *)
Lemma rstrip_decomp (s : string) :
  exists ws, s = PyStr.rstrip s +:+ ws /\ PyStr.all_space ws = true.
Proof.
  induction s as [|c s [ws [Hs Hws]]]; simpl.
  - exists "". now split.
  - destruct (PyStr.rstrip s) as [|y r] eqn:Hr.
    + simpl in Hs. subst ws. destruct (PyStr.isspace c) eqn:Hc.
      * exists (String c s). simpl. now rewrite Hc, Hws.
      * exists s. now split.
    + exists ws. split; [|exact Hws].
      change (String c s = String c (String y r +:+ ws)). now f_equal.
Qed.

Lemma split_nonnil (sep : ascii) (s : string) : PyStr.split sep s <> [].
Proof.
  destruct s as [|c s]; simpl; [discriminate|].
  destruct (Ascii.eqb c sep); [discriminate|].
  destruct (PyStr.split sep s); discriminate.
Qed.

Lemma snoc_last_cons (c : ascii) (l : string) (ls : list string) :
  ls <> [] -> snoc_last c (l :: ls) = l :: snoc_last c ls.
Proof. destruct ls; [congruence | reflexivity]. Qed.

Lemma split_snoc_other (sep c : ascii) (s : string) :
  Ascii.eqb c sep = false ->
  PyStr.split sep (s +:+ String c "") = snoc_last c (PyStr.split sep s).
Proof.
  intros Hc. induction s as [|x s IH]; simpl.
  - now rewrite Hc.
  - rewrite IH. destruct (Ascii.eqb x sep).
    + symmetry. apply snoc_last_cons, split_nonnil.
    + pose proof (split_nonnil sep s) as Hn.
      destruct (PyStr.split sep s) as [|h [|h' t]]; [congruence| reflexivity |].
      reflexivity.
Qed.

Lemma split_snoc_sep (sep : ascii) (s : string) :
  PyStr.split sep (s +:+ String sep "") = PyStr.split sep s ++ [""].
Proof.
  induction s as [|x s IH]; simpl.
  - now rewrite Ascii.eqb_refl.
  - rewrite IH. destruct (Ascii.eqb x sep); [reflexivity|].
    pose proof (split_nonnil sep s) as Hn.
    destruct (PyStr.split sep s) as [|h t]; [congruence | reflexivity].
Qed.

Lemma split_no_sep (sep : ascii) (a : string) :
  PyStr.contains sep a = false -> PyStr.split sep a = [a].
Proof.
  induction a as [|x a IH]; simpl; [reflexivity|].
  intros H. apply orb_false_iff in H as [Hx Ha].
  now rewrite Hx, IH.
Qed.

Lemma split_app_sep (sep : ascii) (a b : string) :
  PyStr.contains sep a = false ->
  PyStr.split sep (a +:+ String sep b) = a :: PyStr.split sep b.
Proof.
  induction a as [|x a IH]; simpl.
  - intros _. now rewrite Ascii.eqb_refl.
  - intros H. apply orb_false_iff in H as [Hx Ha].
    now rewrite Hx, IH.
Qed.

Lemma split_join (sep : ascii) (lines : list string) :
  lines <> [] ->
  Forall (fun l => PyStr.contains sep l = false) lines ->
  PyStr.split sep (PyStr.join (String sep "") lines) = lines.
Proof.
  intros Hne H. induction H as [|l ls Hl Hls IH]; [congruence|].
  destruct ls as [|l' ls'].
  - simpl. now apply split_no_sep.
  - change (PyStr.join (String sep "") (l :: l' :: ls'))
      with (l +:+ String sep (PyStr.join (String sep "") (l' :: ls'))).
    rewrite split_app_sep by exact Hl. f_equal. now apply IH.
Qed.

(** ** Blank lines and outer white space do not reach the parser *)

Lemma clean_snoc_last (c : ascii) (ls : list string) :
  PyStr.isspace c = true -> clean (snoc_last c ls) = clean ls.
Proof.
  intros Hc. induction ls as [|l ls IH]; [reflexivity|].
  destruct ls as [|l' ls'].
  - unfold clean. simpl. now rewrite strip_snoc_space.
  - rewrite snoc_last_cons by discriminate.
    unfold clean in *. simpl in *. now rewrite IH.
Qed.

Lemma clean_app_empty (ls : list string) : clean (ls ++ [""]) = clean ls.
Proof.
  unfold clean. rewrite List.map_app, List.filter_app. simpl. apply app_nil_r.
Qed.

Lemma NL_isspace : PyStr.isspace NL = true.
Proof. reflexivity. Qed.

Lemma clean_split_snoc (c : ascii) (s : string) :
  PyStr.isspace c = true ->
  clean (PyStr.split NL (s +:+ String c "")) = clean (PyStr.split NL s).
Proof.
  intros Hc. destruct (Ascii.eqb c NL) eqn:E.
  - apply Ascii.eqb_eq in E. subst c.
    rewrite split_snoc_sep. apply clean_app_empty.
  - rewrite split_snoc_other by exact E. now apply clean_snoc_last.
Qed.

Lemma clean_split_cons (c : ascii) (s : string) :
  PyStr.isspace c = true ->
  clean (PyStr.split NL (String c s)) = clean (PyStr.split NL s).
Proof.
  intros Hc. simpl. destruct (Ascii.eqb c NL); [reflexivity|].
  pose proof (split_nonnil NL s) as Hn.
  destruct (PyStr.split NL s) as [|h t]; [congruence|].
  unfold clean. simpl. now rewrite strip_cons_space.
Qed.

Lemma clean_split_app_space (ws s : string) :
  PyStr.all_space ws = true ->
  clean (PyStr.split NL (s +:+ ws)) = clean (PyStr.split NL s).
Proof.
  revert s. induction ws as [|c ws IH]; intros s H.
  - now rewrite append_nil_r.
  - simpl in H. apply andb_true_iff in H as [Hc Hws].
    change (String c ws) with (String c "" +:+ ws).
    rewrite <- append_assoc, IH by exact Hws.
    now apply clean_split_snoc.
Qed.

Lemma clean_split_lstrip (s : string) :
  clean (PyStr.split NL (PyStr.lstrip s)) = clean (PyStr.split NL s).
Proof.
  induction s as [|c s IH]; [reflexivity|].
  simpl PyStr.lstrip. destruct (PyStr.isspace c) eqn:Hc; [|reflexivity].
  rewrite IH. symmetry. now apply clean_split_cons.
Qed.

Lemma clean_split_strip (s : string) :
  clean (PyStr.split NL (PyStr.strip s)) = clean (PyStr.split NL s).
Proof.
  unfold PyStr.strip. rewrite clean_split_lstrip.
  destruct (rstrip_decomp s) as [ws [Hs Hws]].
  rewrite Hs at 2. symmetry. now apply clean_split_app_space.
Qed.

Lemma clean_split_join (lines : list string) :
  Forall (fun l => no_newline l = true) lines ->
  clean (PyStr.split NL (PyStr.join (String NL "") lines)) = clean lines.
Proof.
  intros H. destruct lines as [|l ls]; [reflexivity|].
  rewrite split_join; [reflexivity | discriminate |].
  eapply List.Forall_impl; [|exact H].
  intros a Ha. unfold no_newline in Ha. now apply negb_true_iff in Ha.
Qed.

End StringFacts.

(** * Facts about the parser *)

Section ParserFacts.
Context {F : PyFloat}.

Lemma data_lines_cons (l : string) (ls : list string) :
  data_lines (l :: ls) =
  if PyStr.truthy l && negb (header_like l)
  then l :: data_lines ls else data_lines ls.
Proof. reflexivity. Qed.

Lemma data_lines_app (a b : list string) :
  data_lines (a ++ b) = data_lines a ++ data_lines b.
Proof. apply List.filter_app. Qed.

Lemma parse_rows_app (a b : list string) (ts ys : list float) :
  parse_rows (a ++ b) ts ys =
  match parse_rows a ts ys with
  | inl e => inl e
  | inr (ts', ys') => parse_rows b ts' ys'
  end.
Proof.
  revert ts ys. induction a as [|l a IH]; intros ts ys; [reflexivity|].
  simpl. destruct (PyStr.split COMMA (PyStr.strip l)) as [|p0 [|p1 [|p2 r]]];
    try apply IH.
  destruct (float_of_str p0); [reflexivity|].
  destruct (float_of_str p1); [reflexivity|]. apply IH.
Qed.

(** A line without exactly two fields leaves the accumulators alone. *)
Lemma parse_rows_skip (l : string) (rest : list string) (ts ys : list float) :
  two_fields l = false ->
  parse_rows (l :: rest) ts ys = parse_rows rest ts ys.
Proof.
  unfold two_fields, fields. intros H. simpl.
  destruct (PyStr.split COMMA (PyStr.strip l)) as [|p0 [|p1 [|p2 r]]];
    try reflexivity.
  discriminate H.
Qed.

Lemma parse_rows_sample (l : string) (t y : float) (rest : list string)
      (ts ys : list float) :
  well_formed l t y ->
  parse_rows (l :: rest) ts ys = parse_rows rest (ts ++ [t]) (ys ++ [y]).
Proof.
  intros (a & b & Hf & Ha & Hb). unfold fields in Hf. simpl.
  now rewrite Hf, Ha, Hb.
Qed.

Lemma fields_empty : fields "" = [""].
Proof. reflexivity. Qed.

Lemma well_formed_truthy (l : string) (t y : float) :
  well_formed l t y -> PyStr.truthy l = true.
Proof.
  intros (a & b & Hf & _). destruct l; [|reflexivity].
  rewrite fields_empty in Hf. discriminate Hf.
Qed.

Lemma two_fields_blank (l : string) :
  PyStr.strip l = "" -> two_fields l = false.
Proof. intros H. unfold two_fields, fields. now rewrite H. Qed.

(** The parser on an interleaving whose sample lines are not header-like. *)
Lemma parse_rows_merged (lines : list string) (ss : list (float * float)) :
  merged (fun l t y => well_formed l t y /\ header_like l = false) lines ss ->
  forall ts ys,
    parse_rows (data_lines lines) ts ys =
    inr (ts ++ map fst ss, ys ++ map snd ss).
Proof.
  induction 1 as [|l ls ss Hh _ IH|l ls ss Hd _ IH|l t y ls ss [Hw Hh] _ IH];
    intros ts ys.
  - simpl. now rewrite !app_nil_r.
  - rewrite data_lines_cons, Hh, andb_false_r. apply IH.
  - rewrite data_lines_cons.
    destruct (PyStr.truthy l && negb (header_like l)); [|apply IH].
    rewrite parse_rows_skip by exact Hd. apply IH.
  - rewrite data_lines_cons, (well_formed_truthy l t y Hw), Hh. simpl andb.
    cbv iota. rewrite (parse_rows_sample l t y) by exact Hw.
    rewrite IH. simpl. now rewrite <- !app_assoc.
Qed.

Lemma merged_impl (P Q : string -> float -> float -> Prop)
      (lines : list string) (ss : list (float * float)) :
  (forall l t y, P l t y -> Q l t y) ->
  merged P lines ss -> merged Q lines ss.
Proof.
  intros HPQ. induction 1;
    [apply merged_nil | now apply merged_header
     | now apply merged_dropped | apply merged_sample; auto].
Qed.

(** A header-like line has ["t"] as its first field. *)
Lemma header_first_field (l : string) :
  header_like l = true -> exists rest, fields l = "t" :: rest.
Proof.
  unfold header_like, fields.
  destruct (PyStr.strip l) as [|c1 [|c2 [|c3 r]]]; simpl;
    rewrite ?andb_false_r; try discriminate.
  intros H. apply andb_true_iff in H as [H1 H].
  apply andb_true_iff in H as [H2 _].
  apply Ascii.eqb_eq in H1, H2. subst c1 c2. simpl. eauto.
Qed.

Lemma well_formed_not_header (l : string) (t y : float) :
  (forall x, float_of_str "t" <> inr x) ->
  well_formed l t y -> header_like l = false.
Proof.
  intros Ht (a & b & Hf & Ha & _).
  destruct (header_like l) eqn:Hh; [|reflexivity].
  destruct (header_first_field l Hh) as [rest Hr].
  rewrite Hr in Hf. inversion Hf; subst. now apply Ht in Ha.
Qed.

(** Blank lines and white space around lines are invisible to the parser. *)
Lemma parse_rows_clean (lines : list string) (ts ys : list float) :
  parse_rows (data_lines (clean lines)) ts ys =
  parse_rows (data_lines lines) ts ys.
Proof.
  revert ts ys. induction lines as [|l ls IH]; intros ts ys; [reflexivity|].
  change (clean (l :: ls)) with
    (if PyStr.truthy (PyStr.strip l) then PyStr.strip l :: clean ls
     else clean ls).
  rewrite (data_lines_cons l ls).
  destruct (PyStr.truthy (PyStr.strip l)) eqn:Hs.
  - assert (Hl : PyStr.truthy l = true).
    { destruct l; [discriminate Hs | reflexivity]. }
    rewrite data_lines_cons, Hs, Hl.
    unfold header_like. rewrite strip_idem.
    destruct (PyStr.startswith (PyStr.strip l) "t,y"); simpl andb; cbv iota;
      [apply IH|].
    simpl. rewrite strip_idem.
    destruct (PyStr.split COMMA (PyStr.strip l)) as [|p0 [|p1 [|p2 r]]];
      try apply IH.
    destruct (float_of_str p0); [reflexivity|].
    destruct (float_of_str p1); [reflexivity|]. apply IH.
  - assert (Hb : PyStr.strip l = "").
    { unfold PyStr.truthy in Hs. apply negb_false_iff in Hs.
      now apply String.eqb_eq in Hs. }
    destruct (PyStr.truthy l && negb (header_like l)); [|apply IH].
    rewrite parse_rows_skip by now apply two_fields_blank. apply IH.
Qed.

(** The parser sees a text made of lines as those lines. *)
Lemma parse_output_join (lines : list string) :
  Forall (fun l => no_newline l = true) lines ->
  parse_output (PyStr.join (String NL "") lines) = parse_lines lines.
Proof.
  intros H. unfold parse_output, parse_lines.
  rewrite <- parse_rows_clean, clean_split_strip, clean_split_join by exact H.
  apply parse_rows_clean.
Qed.


(** The loop raises nothing but the [ValueError] of [float()]. *)
Lemma parse_rows_error (dl : list string) (ts ys : list float) (e : exn) :
  parse_rows dl ts ys = inl e -> exists m, e = Exn ValueError m.
Proof.
  revert ts ys. induction dl as [|l dl IH]; intros ts ys; simpl; [discriminate|].
  destruct (PyStr.split COMMA (PyStr.strip l)) as [|p0 [|p1 [|p2 r]]];
    try apply IH.
  destruct (float_of_str p0) as [m|t]; [intros [= <-]; eauto|].
  destruct (float_of_str p1) as [m|y]; [intros [= <-]; eauto|]. apply IH.
Qed.

(** Both accumulators grow together. *)
Lemma parse_rows_length (dl : list string) (ts ys ts' ys' : list float) :
  parse_rows dl ts ys = inr (ts', ys') ->
  length ts = length ys -> length ts' = length ys'.
Proof.
  revert ts ys. induction dl as [|l dl IH]; intros ts ys; simpl.
  - intros [= <- <-]. auto.
  - destruct (PyStr.split COMMA (PyStr.strip l)) as [|p0 [|p1 [|p2 r]]];
      try apply IH.
    destruct (float_of_str p0) as [m|t]; [discriminate|].
    destruct (float_of_str p1) as [m|y]; [discriminate|].
    intros H Hlen. apply (IH _ _ H). rewrite !length_app. simpl. lia.
Qed.

(** The loop fails exactly when a data line is rejected. *)
Lemma parse_rows_fails_iff (dl : list string) (ts ys : list float) :
  (exists e, parse_rows dl ts ys = inl e) <->
  (exists l, In l dl /\ rejected l).
Proof.
  revert ts ys. induction dl as [|l dl IH]; intros ts ys.
  - simpl. split; [intros [e H]; discriminate | intros [l [[] _]]].
  - assert (Hskip : ~ rejected l ->
                    (exists l0, In l0 (l :: dl) /\ rejected l0) <->
                    (exists l0, In l0 dl /\ rejected l0)).
    { intros Hn. split; intros (l0 & Hin & Hr); [|exists l0; simpl; tauto].
      destruct Hin as [<-|Hin]; [contradiction | eauto]. }
    simpl parse_rows. unfold rejected at 1 in Hskip. unfold fields in Hskip.
    destruct (PyStr.split COMMA (PyStr.strip l)) as [|p0 [|p1 [|p2 r]]] eqn:Hf;
      try (rewrite IH, Hskip; [reflexivity | intros (a & b & [=] & _)]).
    destruct (float_of_str p0) as [m|t] eqn:H0.
    { split; [intros _ | eauto]. exists l. split; [now left|].
      exists p0, p1. unfold fields. eauto. }
    destruct (float_of_str p1) as [m|y] eqn:H1.
    { split; [intros _ | eauto]. exists l. split; [now left|].
      exists p0, p1. unfold fields. eauto. }
    rewrite IH, Hskip; [reflexivity|].
    intros (a & b & [= <- <-] & [[m Hm]|[m Hm]]); congruence.
Qed.

End ParserFacts.

(** * Facts about the wrapper *)

Section WrapperFacts.
Context {F : PyFloat}.

(** [solve], case by case on what the operating system does. *)
Lemma solve_cases (self : FortranODESolver) (t0 tf y0 n_steps : pyvalue)
      (w : World) :
  solve self t0 tf y0 n_steps w =
  match run_end_of (os_exec w (length (commands w)) [self.(executable_path)])
                   30 with
  | NotStarted cls msg =>
      (inl (Exn RuntimeError ("Error running Fortran solver: " +:+ msg)),
       log_command [self.(executable_path)] w)
  | Overrun => (inl timeout_error, after_run self w)
  | Finished rc out err =>
      if (rc =? 0)%Z then
        (match parse_output out with
         | inl e => inl (solve_except e)
         | inr r => inr r
         end, after_run self w)
      else (inl (Exn RuntimeError ("Fortran solver failed: " +:+ err)),
            after_run self w)
  end.
Proof.
  unfold solve, try_except, bind, subprocess_run, lift, raise, after_run.
  destruct (run_end_of (os_exec w (length (commands w))
                                [self.(executable_path)]) 30)
    as [cls msg| |rc out err]; [reflexivity|reflexivity|].
  destruct (rc =? 0)%Z; simpl; [|reflexivity].
  destruct (parse_output out); reflexivity.
Qed.

Lemma parse_output_error (stdout : string) (e : exn) :
  parse_output stdout = inl e -> exists m, e = Exn ValueError m.
Proof. apply parse_rows_error. Qed.

(** A successful [solve] is a run that was over in time with code 0 and
    whose output parsed. *)
Lemma solve_ok_inv (self : FortranODESolver) (t0 tf y0 n_steps : pyvalue)
      (w w' : World) (r : list float * list float) :
  solve self t0 tf y0 n_steps w = (inr r, w') ->
  exists out err,
    run_end_of (os_exec w (length (commands w)) [self.(executable_path)]) 30
    = Finished 0 out err /\
    parse_output out = inr r /\
    w' = after_run self w.
Proof.
  rewrite solve_cases.
  destruct (run_end_of (os_exec w (length (commands w))
                                [self.(executable_path)]) 30)
    as [cls msg| |rc out err]; [discriminate|discriminate|].
  destruct (rc =? 0)%Z eqn:Hrc; [|discriminate].
  apply Z.eqb_eq in Hrc. subst rc.
  destruct (parse_output out) as [e|r0] eqn:Hp; [discriminate|].
  intros [= <- <-]. eauto 8.
Qed.

Lemma solve_commands (self : FortranODESolver) (t0 tf y0 n_steps : pyvalue)
      (w : World) :
  commands (snd (solve self t0 tf y0 n_steps w))
  = commands w ++ [[self.(executable_path)]].
Proof.
  rewrite solve_cases.
  destruct (run_end_of (os_exec w (length (commands w))
                                [self.(executable_path)]) 30)
    as [cls msg| |rc out err]; [reflexivity|reflexivity|].
  destruct (rc =? 0)%Z; reflexivity.
Qed.

End WrapperFacts.

(** * The claims *)

(** C1: the requested [t0], [tf], [y0] and [n_steps] have no effect on a
    solve call.  On the same machine (same backend behaviour), two calls on
    one handle with any two sets of parameters give the same outcome (the
    same series or the same failure, and the same machine afterwards), and
    the one command each hands to [subprocess.run] is the executable path
    alone, with no arguments. *)
Theorem solve_ignores_request `{F : PyFloat} (self : FortranODESolver)
        (t0 tf y0 n_steps t0' tf' y0' n_steps' : pyvalue) (w : World) :
  solve self t0 tf y0 n_steps w = solve self t0' tf' y0' n_steps' w /\
  commands (snd (solve self t0 tf y0 n_steps w))
  = commands w ++ [[self.(executable_path)]].
Proof.
  split; [now rewrite !solve_cases | apply solve_commands].
Qed.

(** C9: for every successful solve call, whatever the backend printed, the
    returned time list and value list have the same length (a natural
    number, so at least zero). *)
Theorem solve_lengths_agree `{F : PyFloat} (self : FortranODESolver)
        (t0 tf y0 n_steps : pyvalue) (w w' : World)
        (t_vals y_vals : list float) :
  solve self t0 tf y0 n_steps w = (inr (t_vals, y_vals), w') ->
  length t_vals = length y_vals /\ 0 <= length t_vals.
Proof.
  intros H. apply solve_ok_inv in H as (out & err & _ & Hp & _).
  split; [|lia]. unfold parse_output, parse_lines in Hp.
  now apply parse_rows_length in Hp.
Qed.

Lemma solve_lengths_agree_witness :
  exists t_vals y_vals w',
    @solve DecFloat.model Demo.solver (Demo.f 0) (Demo.f 10) (Demo.f 1)
           (PyIntV 100) Demo.healthy = (inr (t_vals, y_vals), w') /\
    length t_vals = 2 /\ length t_vals = length y_vals /\ 0 <= length t_vals.
Proof.
  eexists _, _, _. split; [vm_compute; reflexivity|].
  split; [reflexivity|].
  apply (@solve_lengths_agree DecFloat.model Demo.solver (Demo.f 0)
           (Demo.f 10) (Demo.f 1) (PyIntV 100) Demo.healthy
           (after_run Demo.solver Demo.healthy)).
  vm_compute. reflexivity.
Defined.

(** C7: a solve call whose backend process has not exited within the 30
    seconds [solve] allows fails with the timeout error; the call fails
    with that error exactly when the run is not over within the 30 seconds,
    which is the case when the backend has not exited and also when it has
    exited but its captured pipes are still held open; either way the
    child [solve] started has been killed and reaped by then, so the call
    leaves no more child processes of its own than it found. *)
Theorem solve_timeout_iff `{F : PyFloat} (self : FortranODESolver)
        (t0 tf y0 n_steps : pyvalue) (w : World) :
  (backend_exits_late w self = true ->
   fst (solve self t0 tf y0 n_steps w) = inl timeout_error) /\
  (fst (solve self t0 tf y0 n_steps w) = inl timeout_error <->
   backend_overruns w self = true) /\
  children (snd (solve self t0 tf y0 n_steps w)) = children w.
Proof.
  rewrite solve_cases.
  unfold backend_exits_late, backend_overruns, timeout_error.
  split.
  - destruct (os_exec w (length (commands w)) [self.(executable_path)])
      as [cls msg|d rc out err|d eof rc out err]; unfold run_end_of.
    + discriminate.
    + destruct (exits_within d 30); [discriminate|reflexivity].
    + destruct (exits_within (Some d) 30); [discriminate|reflexivity].
  - destruct (run_end_of (os_exec w (length (commands w))
                                  [self.(executable_path)]) 30)
      as [cls msg| |rc out err].
    + split; [|reflexivity]. simpl. split; discriminate.
    + split; [|reflexivity]. split; reflexivity.
    + destruct (rc =? 0)%Z; simpl.
      * split; [|reflexivity]. split; [|discriminate].
        destruct (parse_output out) as [e|r] eqn:Hp; [|discriminate].
        apply parse_output_error in Hp as [m ->]. discriminate.
      * split; [|reflexivity]. split; discriminate.
Qed.

Lemma solve_timeout_iff_witness :
  backend_exits_late Demo.hung Demo.solver = true /\
  fst (@solve DecFloat.model Demo.solver (Demo.f 0) (Demo.f 10) (Demo.f 1)
              (PyIntV 100) Demo.hung) = inl timeout_error.
Proof.
  split; [reflexivity|].
  apply (proj1 (@solve_timeout_iff DecFloat.model Demo.solver (Demo.f 0)
                  (Demo.f 10) (Demo.f 1) (PyIntV 100) Demo.hung)).
  reflexivity.
Defined.

(** A backend that printed its table and exited with code 0 after 120 ms,
    but left a process holding the captured pipes, makes [solve] fail with
    the timeout error although the backend itself has exited in time. *)
Lemma solve_times_out_after_exit :
  os_exec Demo2.lingering (length (commands Demo2.lingering))
          [Demo.solver.(executable_path)]
  = Lingers 120%N None 0 Demo.healthy_stdout "" /\
  backend_exits_late Demo2.lingering Demo.solver = false /\
  fst (@solve DecFloat.model Demo.solver (Demo.f 0) (Demo.f 10) (Demo.f 1)
              (PyIntV 100) Demo2.lingering) = inl timeout_error.
Proof.
  split; [reflexivity|]. split; [reflexivity|].
  rewrite solve_cases. reflexivity.
Qed.

(** C5: an explicitly supplied executable path that does not exist makes
    the construction of the handle fail with [FileNotFoundError], the
    machine untouched (no command run, no child started); and whatever the
    argument, a handle that was constructed holds a path that exists. *)
Theorem init_requires_executable :
  (forall (p : string) (w : World),
      path_exists w (Path p) = false ->
      init (Some p) w
      = (inl (Exn FileNotFoundError ("Executable not found: " +:+ Path p)), w))
  /\
  (forall (arg : option string) (w w' : World) (self : FortranODESolver),
      init arg w = (inr self, w') ->
      path_exists w self.(executable_path) = true /\ w' = w).
Proof.
  split.
  - intros p w H. unfold init. simpl. now rewrite H.
  - intros arg w w' self. unfold init.
    destruct arg as [p|].
    + simpl. destruct (path_exists w (Path p)) eqn:Hp; simpl; [|discriminate].
      intros [= <- <-]. auto.
    + destruct (List.find (path_exists w) (search_paths w)) as [p|];
        [|discriminate].
      simpl. destruct (path_exists w (Path p)) eqn:Hp; simpl; [|discriminate].
      intros [= <- <-]. auto.
Qed.

Lemma init_requires_executable_witness :
  path_exists Demo.healthy (Path "nowhere/ode_solver") = false /\
  init (Some "nowhere/ode_solver") Demo.healthy
  = (inl (Exn FileNotFoundError "Executable not found: nowhere/ode_solver"),
     Demo.healthy).
Proof.
  split; [reflexivity|].
  apply (proj1 init_requires_executable "nowhere/ode_solver" Demo.healthy).
  reflexivity.
Defined.

Lemma Forall_drop_middle {A} (P : A -> Prop) (pre post : list A) (x : A) :
  Forall P (pre ++ x :: post) -> Forall P (pre ++ post).
Proof.
  rewrite !List.Forall_app. intros [Hpre Hpost]. split; [exact Hpre|].
  now inversion Hpost.
Qed.

(** C10: the header test is a prefix match.  A line whose stripped text
    begins with [t,y] contributes nothing, whatever follows the prefix: the
    text with the line parses as the text without it. *)
Theorem header_prefix_dropped `{F : PyFloat} (pre post : list string)
        (l : string) :
  Forall (fun l => no_newline l = true) (pre ++ l :: post) ->
  header_like l = true ->
  parse_output (PyStr.join (String NL "") (pre ++ l :: post))
  = parse_output (PyStr.join (String NL "") (pre ++ post)).
Proof.
  intros Hnl Hh.
  rewrite !parse_output_join by eauto using Forall_drop_middle.
  unfold parse_lines.
  now rewrite !data_lines_app, data_lines_cons, Hh, andb_false_r.
Qed.

Lemma header_prefix_dropped_witness :
  header_like "t,yield" = true /\
  @parse_output DecFloat.model
    (Demo.lines_text ["t,y"; "0.5,1.0"; "t,yield"; "1.0,2.0"])
  = @parse_output DecFloat.model (Demo.lines_text ["t,y"; "0.5,1.0"; "1.0,2.0"]).
Proof.
  split; [reflexivity|].
  apply (@header_prefix_dropped DecFloat.model ["t,y"; "0.5,1.0"] ["1.0,2.0"]
           "t,yield").
  - repeat constructor.
  - reflexivity.
Defined.

(** C2, as the code has it: a line that does not split into exactly two
    comma-separated fields is dropped without a trace; parsing raises
    exactly when some non-empty, non-header line splits into exactly two
    fields of which [float()] rejects one; and [solve] surfaces that as its
    generic [RuntimeError]. *)
Theorem parse_drops_or_raises `{F : PyFloat} :
  (forall (pre post : list string) (l : string),
      Forall (fun l => no_newline l = true) (pre ++ l :: post) ->
      two_fields l = false ->
      parse_output (PyStr.join (String NL "") (pre ++ l :: post))
      = parse_output (PyStr.join (String NL "") (pre ++ post)))
  /\
  (forall stdout : string,
      (exists e, parse_output stdout = inl e) <->
      (exists l, In l (PyStr.split NL (PyStr.strip stdout)) /\
                 PyStr.truthy l = true /\ header_like l = false /\
                 rejected l))
  /\
  (forall (self : FortranODESolver) (t0 tf y0 n_steps : pyvalue) (w : World)
          (d : option N) (out err : string) (e : exn),
      os_exec w (length (commands w)) [self.(executable_path)]
      = Runs d 0 out err ->
      exits_within d 30 = true ->
      parse_output out = inl e ->
      fst (solve self t0 tf y0 n_steps w)
      = inl (Exn RuntimeError
               ("Error running Fortran solver: " +:+ exn_str e))).
Proof.
  split; [|split].
  - intros pre post l Hnl Hd.
    rewrite !parse_output_join by eauto using Forall_drop_middle.
    unfold parse_lines. rewrite !data_lines_app, data_lines_cons.
    destruct (PyStr.truthy l && negb (header_like l)); [|reflexivity].
    rewrite !parse_rows_app.
    destruct (parse_rows (data_lines pre) [] []) as [e|[ts ys]]; [reflexivity|].
    now apply parse_rows_skip.
  - intros stdout. unfold parse_output, parse_lines.
    rewrite parse_rows_fails_iff. unfold data_lines.
    split.
    + intros (l & Hin & Hr). apply List.filter_In in Hin as [Hin Hc].
      apply andb_true_iff in Hc as [Ht Hh]. apply negb_true_iff in Hh.
      exists l. auto.
    + intros (l & Hin & Ht & Hh & Hr). exists l. split; [|exact Hr].
      apply List.filter_In. split; [exact Hin|].
      unfold header_like in Hh. now rewrite Ht, Hh.
  - intros self t0 tf y0 n_steps w d out err e Hos Hd Hp.
    rewrite solve_cases, Hos. unfold run_end_of. rewrite Hd. simpl.
    rewrite Hp.
    apply parse_output_error in Hp as [m ->]. reflexivity.
Qed.

Lemma parse_drops_or_raises_witness :
  two_fields "1,2,3" = false /\
  @parse_output DecFloat.model
    (Demo.lines_text ["t,y"; "0.5,1.0"; "1,2,3"; "1.0,2.0"])
  = @parse_output DecFloat.model (Demo.lines_text ["t,y"; "0.5,1.0"; "1.0,2.0"]).
Proof.
  split; [reflexivity|].
  apply (proj1 (@parse_drops_or_raises DecFloat.model)
           ["t,y"; "0.5,1.0"] ["1.0,2.0"] "1,2,3").
  - repeat constructor.
  - reflexivity.
Defined.

(** C2 as stated fails: a line with two fields that are not numbers makes
    the parser raise, and the solve call fail. *)
Lemma malformed_line_fails_solve :
  fst (@solve DecFloat.model Demo.solver (Demo.f 0) (Demo.f 10) (Demo.f 1)
              (PyIntV 100) Demo.garbled)
  = inl (Exn RuntimeError
           "Error running Fortran solver: could not convert string to float: 'abc'").
Proof. vm_compute. reflexivity. Qed.

(** C3, as the code has it: for a text whose lines are header-like lines,
    well-formed [float,float] lines and lines that do not split into exactly
    two fields, in any order, parsing returns the samples of the well-formed
    lines, in order, and nothing else. *)
Theorem parse_interleaving `{F : PyFloat} (lines : list string)
        (ss : list (float * float)) :
  (forall x, float_of_str "t" <> inr x) ->
  Forall (fun l => no_newline l = true) lines ->
  merged well_formed lines ss ->
  parse_output (PyStr.join (String NL "") lines)
  = inr (map fst ss, map snd ss) /\
  length (map fst ss) = length ss /\ length (map snd ss) = length ss.
Proof.
  intros Ht Hnl Hm. rewrite !length_map. split; [|auto].
  rewrite parse_output_join by exact Hnl. unfold parse_lines.
  apply (parse_rows_merged lines ss).
  eapply merged_impl; [|exact Hm].
  intros l t y Hw. split; [exact Hw|].
  now apply (well_formed_not_header l t y Ht).
Qed.

Lemma parse_interleaving_witness :
  @parse_output DecFloat.model Demo.healthy_stdout
  = inr ([DecFloat.of_Z 0; DecFloat.of_Z 1],
         [DecFloat.of_Z 1; DecFloat.Fin false 606531 (-6)]).
Proof.
  refine (proj1 (@parse_interleaving DecFloat.model
           ["t,y"; "0.000000,1.000000"; "1.000000,0.606531"; ""]
           ([(DecFloat.of_Z 0, DecFloat.of_Z 1);
             (DecFloat.of_Z 1, DecFloat.Fin false 606531 (-6))]
            : list (@float DecFloat.model * @float DecFloat.model)) _ _ _)).
  - intros x H. vm_compute in H. discriminate H.
  - repeat constructor.
  - apply merged_header; [reflexivity|].
    apply (@merged_sample DecFloat.model well_formed _
             (DecFloat.of_Z 0) (DecFloat.of_Z 1));
      [exists "0.000000", "1.000000"; repeat split; reflexivity|].
    apply (@merged_sample DecFloat.model well_formed _
             (DecFloat.of_Z 1) (DecFloat.Fin false 606531 (-6)));
      [exists "1.000000", "0.606531"; repeat split; reflexivity|].
    apply merged_dropped; [reflexivity|].
    exact (@merged_nil DecFloat.model well_formed).
Defined.

(** C3 as stated fails: a header, one well-formed line and one malformed
    line ([abc,def]) do not parse to a series of length one; the parser
    raises. *)
Lemma malformed_two_fields_raises :
  @parse_output DecFloat.model
    (Demo.lines_text ["t,y"; "0.000000,1.000000"; "abc,def"; ""])
  = inl (Exn ValueError "could not convert string to float: 'abc'").
Proof. vm_compute. reflexivity. Qed.

(** * The sweep *)

Section SweepFacts.
Context {F : PyFloat}.

Lemma sweep_loop_cons (param_name : string) (value : pyvalue)
      (rest : list pyvalue) (solver : FortranODESolver) (base : kwargs)
      (acc : list (pyvalue * list float * list float)) (w : World) :
  sweep_loop param_name (value :: rest) solver base acc w =
  match call_solve solver (dict_set param_name value base) w with
  | (inl e, w') => (inl e, w')
  | (inr (t_vals, y_vals), w') =>
      sweep_loop param_name rest solver base
                 (acc ++ [(value, t_vals, y_vals)]) w'
  end.
Proof.
  simpl. unfold bind.
  destruct (call_solve solver (dict_set param_name value base) w)
    as [[e|[t y]] w']; reflexivity.
Qed.

(** A sweep over [pre ++ post] is the sweep over [pre], then, if that
    went through, the sweep over [post]. *)
Lemma sweep_loop_app (param_name : string) (pre post : list pyvalue)
      (solver : FortranODESolver) (base : kwargs)
      (acc : list (pyvalue * list float * list float)) (w : World) :
  sweep_loop param_name (pre ++ post) solver base acc w =
  match sweep_loop param_name pre solver base acc w with
  | (inl e, w') => (inl e, w')
  | (inr rs, w') => sweep_loop param_name post solver base rs w'
  end.
Proof.
  revert acc w. induction pre as [|v pre IH]; intros acc w; [reflexivity|].
  change ((v :: pre) ++ post) with (v :: (pre ++ post)).
  rewrite !sweep_loop_cons.
  destruct (call_solve solver (dict_set param_name v base) w)
    as [[e|[t y]] w']; [reflexivity | apply IH].
Qed.

Lemma sweep_loop_succeeds (param_name : string) (values : list pyvalue)
      (solver : FortranODESolver) (base : kwargs) :
  forall (w : World) (acc : list (pyvalue * list float * list float)),
    solves_succeed param_name values solver base w ->
    exists results w',
      sweep_loop param_name values solver base acc w
      = (inr (acc ++ results), w') /\
      map entry_value results = values.
Proof.
  induction values as [|v values IH]; intros w acc H.
  - exists [], w. simpl. now rewrite app_nil_r.
  - destruct H as ([t y] & w1 & Hc & Hrest).
    destruct (IH w1 (acc ++ [(v, t, y)]) Hrest) as (rs & w' & Hl & Hm).
    exists ((v, t, y) :: rs), w'. rewrite sweep_loop_cons, Hc, Hl.
    rewrite <- app_assoc. simpl. now rewrite Hm.
Qed.

Lemma call_solve_commands (solver : FortranODESolver) (kw : kwargs)
      (w : World) :
  length (commands (snd (call_solve solver kw w))) <= length (commands w) + 1.
Proof.
  unfold call_solve.
  destruct (List.find (fun kv => negb (is_solve_param (fst kv))) kw)
    as [[k v]|].
  - simpl. lia.
  - rewrite solve_commands, length_app. simpl. lia.
Qed.

Lemma sweep_loop_commands (param_name : string) (values : list pyvalue)
      (solver : FortranODESolver) (base : kwargs) :
  forall (acc : list (pyvalue * list float * list float)) (w : World),
    length (commands (snd (sweep_loop param_name values solver base acc w)))
    <= length (commands w) + length values.
Proof.
  induction values as [|v values IH]; intros acc w; [simpl; lia|].
  rewrite sweep_loop_cons.
  pose proof (call_solve_commands solver (dict_set param_name v base) w) as Hc.
  destruct (call_solve solver (dict_set param_name v base) w)
    as [[e|[t y]] w']; simpl in Hc |- *; [lia|].
  specialize (IH (acc ++ [(v, t, y)]) w'). lia.
Qed.

End SweepFacts.

(** C4: when every underlying solve call succeeds, [parameter_sweep]
    returns a list with one entry per input value, in input order, and the
    first element of the i-th entry is the i-th input value. *)
Theorem sweep_keeps_values `{F : PyFloat} (param_name : string)
        (param_values : list pyvalue) (solver : FortranODESolver)
        (base_kwargs : kwargs) (w : World) :
  solves_succeed param_name param_values solver base_kwargs w ->
  exists results w',
    parameter_sweep param_name param_values solver base_kwargs w
    = (inr results, w') /\
    length results = length param_values /\
    map entry_value results = param_values /\
    (forall i : nat, entry_value <$> (results !! i) = param_values !! i).
Proof.
  intros H.
  destruct (sweep_loop_succeeds param_name param_values solver base_kwargs
              w [] H) as (rs & w' & Hl & Hm).
  exists rs, w'. split; [exact Hl|]. split; [|split; [exact Hm|]].
  - rewrite <- Hm. now rewrite length_map.
  - intros i. rewrite <- Hm. now rewrite list_lookup_fmap.
Qed.

Lemma sweep_keeps_values_witness :
  exists (results : list (@pyvalue DecFloat.model * list DecFloat.dec
                          * list DecFloat.dec)) w',
    @parameter_sweep DecFloat.model "y0" [Demo.half; Demo.f 1; Demo.f 2]
                     Demo.solver [] Demo.healthy = (inr results, w') /\
    length results = length [Demo.half; Demo.f 1; Demo.f 2] /\
    map (@entry_value DecFloat.model) results
    = [Demo.half; Demo.f 1; Demo.f 2] /\
    (forall i : nat,
        @entry_value DecFloat.model <$> (results !! i)
        = [Demo.half; Demo.f 1; Demo.f 2] !! i).
Proof.
  apply (@sweep_keeps_values DecFloat.model "y0"
           [Demo.half; Demo.f 1; Demo.f 2] Demo.solver [] Demo.healthy).
  simpl.
  eexists _, _. split; [vm_compute; reflexivity|].
  eexists _, _. split; [vm_compute; reflexivity|].
  eexists _, _. split; [vm_compute; reflexivity|].
  exact I.
Defined.

(** C6: when the solve call for a value fails after the calls for the
    values before it went through, [parameter_sweep] fails with that very
    failure and stops there: the machine is left as the failing call left
    it (no command was run for a later value) and no list is returned. *)
Theorem sweep_aborts_on_failure `{F : PyFloat} (param_name : string)
        (pre post : list pyvalue) (value : pyvalue)
        (solver : FortranODESolver) (base_kwargs : kwargs)
        (w w1 w2 : World) (rs : list (pyvalue * list float * list float))
        (e : exn) :
  parameter_sweep param_name pre solver base_kwargs w = (inr rs, w1) ->
  call_solve solver (dict_set param_name value base_kwargs) w1 = (inl e, w2) ->
  parameter_sweep param_name (pre ++ value :: post) solver base_kwargs w
  = (inl e, w2) /\
  length (commands w2) <= length (commands w) + length pre + 1.
Proof.
  unfold parameter_sweep. intros Hpre Hfail. split.
  - now rewrite sweep_loop_app, Hpre, sweep_loop_cons, Hfail.
  - pose proof (sweep_loop_commands param_name pre solver base_kwargs [] w) as H1.
    pose proof (call_solve_commands solver
                  (dict_set param_name value base_kwargs) w1) as H2.
    rewrite Hpre in H1. rewrite Hfail in H2. simpl in H1, H2. lia.
Qed.

Lemma sweep_aborts_on_failure_witness :
  @parameter_sweep DecFloat.model "y0" ([Demo.half] ++ Demo.f 1 :: [Demo.f 2])
                   Demo.solver [] Demo.flaky
  = (inl (Exn RuntimeError "Fortran solver failed: division by zero"),
     after_run Demo.solver (after_run Demo.solver Demo.flaky)) /\
  length (commands (after_run Demo.solver (after_run Demo.solver Demo.flaky)))
  <= length (commands Demo.flaky) + length [Demo.half] + 1.
Proof.
  apply (@sweep_aborts_on_failure DecFloat.model "y0" [Demo.half] [Demo.f 2]
           (Demo.f 1) Demo.solver [] Demo.flaky
           (after_run Demo.solver Demo.flaky)
           (after_run Demo.solver (after_run Demo.solver Demo.flaky))
           [(Demo.half, [DecFloat.of_Z 0; DecFloat.of_Z 1],
             [DecFloat.of_Z 1; DecFloat.Fin false 606531 (-6)])]).
  - vm_compute. reflexivity.
  - vm_compute. reflexivity.
Defined.

(** * Writing the series and reading it back *)

Section RoundTripFacts.
Context {F : PyFloat}.

Lemma float_char_plain (c : ascii) :
  float_char c = true ->
  PyStr.isspace c = false /\ Ascii.eqb c COMMA = false /\
  Ascii.eqb c DQUOTE = false /\ Ascii.eqb c CR = false /\
  Ascii.eqb c NL = false /\ Ascii.eqb c "t" = false.
Proof.
  destruct c as [[] [] [] [] [] [] [] []]; vm_compute; intros H;
    try discriminate H; repeat split.
Qed.

Lemma all_chars_app (p : ascii -> bool) (a b : string) :
  all_chars p (a +:+ b) = all_chars p a && all_chars p b.
Proof.
  induction a as [|c a IH]; simpl; [reflexivity|].
  now rewrite IH, andb_assoc.
Qed.

Lemma all_chars_impl (p q : ascii -> bool) (s : string) :
  (forall c, p c = true -> q c = true) ->
  all_chars p s = true -> all_chars q s = true.
Proof.
  intros Hpq. induction s as [|c s IH]; simpl; [reflexivity|].
  intros H. apply andb_true_iff in H as [Hc Hs].
  now rewrite (Hpq c Hc), IH.
Qed.

Lemma all_chars_contains (p : ascii -> bool) (c : ascii) (s : string) :
  (forall x, p x = true -> Ascii.eqb x c = false) ->
  all_chars p s = true -> PyStr.contains c s = false.
Proof.
  intros Hp. induction s as [|x s IH]; simpl; [reflexivity|].
  intros H. apply andb_true_iff in H as [Hx Hs].
  now rewrite (Hp x Hx), IH.
Qed.

Lemma contains_app (c : ascii) (a b : string) :
  PyStr.contains c (a +:+ b) = PyStr.contains c a || PyStr.contains c b.
Proof.
  induction a as [|x a IH]; simpl; [reflexivity|].
  now rewrite IH, orb_assoc.
Qed.

Lemma rstrip_no_space (s : string) :
  all_chars not_space s = true -> PyStr.rstrip s = s.
Proof.
  induction s as [|c s IH]; simpl; [reflexivity|].
  intros H. apply andb_true_iff in H as [Hc Hs].
  rewrite IH by exact Hs. unfold not_space in Hc.
  apply negb_true_iff in Hc. rewrite Hc. now destruct s.
Qed.

Lemma lstrip_no_space (s : string) :
  all_chars not_space s = true -> PyStr.lstrip s = s.
Proof.
  destruct s as [|c s]; simpl; [reflexivity|].
  intros H. apply andb_true_iff in H as [Hc _]. unfold not_space in Hc.
  apply negb_true_iff in Hc. now rewrite Hc.
Qed.

Lemma strip_no_space (s : string) :
  all_chars not_space s = true -> PyStr.strip s = s.
Proof.
  intros H. unfold PyStr.strip. rewrite rstrip_no_space by exact H.
  now apply lstrip_no_space.
Qed.

Lemma float_text_chars (a : string) :
  float_text a = true -> all_chars float_char a = true.
Proof. unfold float_text. intros H. now apply andb_true_iff in H. Qed.

Lemma float_text_no (c : ascii) (a : string) :
  (forall x, float_char x = true -> Ascii.eqb x c = false) ->
  float_text a = true -> PyStr.contains c a = false.
Proof.
  intros Hc Ha. apply (all_chars_contains float_char); [exact Hc|].
  now apply float_text_chars.
Qed.

Lemma csv_field_float_text (a : string) :
  float_text a = true -> csv_field a = a.
Proof.
  intros Ha. unfold csv_field, csv_needs_quote.
  rewrite !(float_text_no _ a) by
    (exact Ha || (intros x Hx; now apply float_char_plain in Hx)).
  reflexivity.
Qed.

Section Row.
Variables a b : string.
Hypothesis Ha : float_text a = true.
Hypothesis Hb : float_text b = true.

Let body : string := a +:+ "," +:+ b.

Lemma row_body_no_space : all_chars not_space body = true.
Proof using Ha Hb.
  unfold body. rewrite !all_chars_app. simpl.
  assert (Hns : forall s, float_text s = true ->
                          all_chars not_space s = true).
  { intros s Hs. apply (all_chars_impl float_char); [|now apply float_text_chars].
    intros c Hc. unfold not_space.
    apply float_char_plain in Hc as [-> _]. reflexivity. }
  now rewrite (Hns a Ha), (Hns b Hb).
Qed.

Lemma row_strip : PyStr.strip (body +:+ String CR "") = body.
Proof using Ha Hb.
  rewrite strip_snoc_space by reflexivity.
  apply strip_no_space, row_body_no_space.
Qed.

Lemma row_fields : PyStr.split COMMA body = [a; b].
Proof using Ha Hb.
  unfold body. change ("," +:+ b) with (String COMMA b).
  rewrite split_app_sep, split_no_sep; [reflexivity| |];
    apply float_text_no; try assumption;
    intros x Hx; now apply float_char_plain in Hx.
Qed.

Lemma row_not_header : PyStr.startswith body "t,y" = false.
Proof using Ha.
  unfold body. destruct a as [|c a']; [discriminate Ha|].
  apply float_text_chars in Ha. simpl in Ha.
  apply andb_true_iff in Ha as [Hc _].
  apply float_char_plain in Hc as (_ & _ & _ & _ & _ & Ht).
  simpl. now rewrite Ht.
Qed.

Lemma row_no_newline : no_newline (body +:+ String CR "") = true.
Proof using Ha Hb.
  assert (Hnl : forall x, float_char x = true -> Ascii.eqb x NL = false).
  { intros x Hx. now apply float_char_plain in Hx. }
  unfold no_newline, body. rewrite !contains_app.
  rewrite (float_text_no NL a Hnl Ha), (float_text_no NL b Hnl Hb).
  reflexivity.
Qed.

Lemma row_csv :
  csv_row [a; b] = (body +:+ String CR "") +:+ String NL "".
Proof using Ha Hb.
  unfold csv_row, body. simpl map. rewrite !csv_field_float_text by assumption.
  change (PyStr.join "," [a; b]) with (a +:+ "," +:+ b).
  now rewrite !append_assoc.
Qed.
End Row.

Lemma row_line_body (t y : float) :
  row_line t y = (float_str t +:+ "," +:+ float_str y) +:+ String CR "".
Proof. unfold row_line. now rewrite !append_assoc. Qed.

Lemma row_line_sample (t y : float) :
  prints_back t -> prints_back y ->
  well_formed (row_line t y) t y /\ header_like (row_line t y) = false.
Proof.
  intros [Ht Hrt] [Hy Hry]. unfold well_formed, header_like, fields.
  rewrite row_line_body, row_strip by assumption. split.
  - exists (float_str t), (float_str y).
    rewrite row_fields by assumption. auto.
  - now apply row_not_header.
Qed.

Lemma merged_rows (ts ys : list float) :
  Forall prints_back ts -> Forall prints_back ys ->
  merged (fun l t y => well_formed l t y /\ header_like l = false)
         (map (fun '(t, y) => row_line t y) (combine ts ys) ++ [""])
         (combine ts ys).
Proof.
  intros Hts. revert ys. induction Hts as [|t ts Ht Hts IH]; intros ys Hys.
  - simpl. apply merged_dropped; [reflexivity | apply merged_nil].
  - destruct Hys as [|y ys Hy Hys].
    + simpl. apply merged_dropped; [reflexivity | apply merged_nil].
    + simpl. apply merged_sample; [now apply row_line_sample | now apply IH].
Qed.

Lemma rows_no_newline (ts ys : list float) :
  Forall prints_back ts -> Forall prints_back ys ->
  Forall (fun l => no_newline l = true)
         (map (fun '(t, y) => row_line t y) (combine ts ys) ++ [""]).
Proof.
  intros Hts. revert ys. induction Hts as [|t ts Ht Hts IH]; intros ys Hys.
  - simpl. repeat constructor.
  - destruct Hys as [|y ys Hy Hys]; [simpl; repeat constructor|].
    simpl. constructor; [|now apply IH].
    rewrite row_line_body. destruct Ht, Hy. now apply row_no_newline.
Qed.

Lemma join_cons (sep p : string) (rest : list string) :
  rest <> [] ->
  PyStr.join sep (p :: rest) = p +:+ sep +:+ PyStr.join sep rest.
Proof. destruct rest; [congruence | reflexivity]. Qed.

(** Lines each ended by a newline are those lines joined, and one empty
    line at the end. *)
Lemma terminated_lines_join (ls : list string) :
  fold_right String.append "" (map (fun l => l +:+ String NL "") ls)
  = PyStr.join (String NL "") (ls ++ [""]).
Proof.
  induction ls as [|l ls IH]; [reflexivity|].
  change ((l :: ls) ++ [""]) with (l :: (ls ++ [""])).
  rewrite join_cons by (destruct ls; discriminate).
  simpl fold_right. now rewrite IH, append_assoc.
Qed.

Lemma csv_rows_map (ts ys : list float) :
  Forall prints_back ts -> Forall prints_back ys ->
  map (fun '(t, y) => csv_row [float_str t; float_str y]) (combine ts ys)
  = map (fun l => l +:+ String NL "")
        (map (fun '(t, y) => row_line t y) (combine ts ys)).
Proof.
  intros Hts. revert ys. induction Hts as [|t ts Ht Hts IH]; intros ys Hys;
    [reflexivity|].
  destruct Hys as [|y ys Hy Hys]; [reflexivity|].
  simpl. rewrite IH by exact Hys. f_equal.
  destruct Ht, Hy. rewrite row_csv by assumption. now rewrite row_line_body.
Qed.

Lemma csv_text_lines (ts ys : list float) :
  Forall prints_back ts -> Forall prints_back ys ->
  csv_text ts ys = PyStr.join (String NL "") (file_lines ts ys).
Proof.
  intros Hts Hys. unfold csv_text, file_lines.
  rewrite csv_rows_map, terminated_lines_join by assumption.
  rewrite join_cons by (destruct (map _ _); discriminate).
  reflexivity.
Qed.

Lemma combine_fst_snd {A B} (xs : list A) (ys : list B) :
  length xs = length ys ->
  map fst (combine xs ys) = xs /\ map snd (combine xs ys) = ys.
Proof.
  revert ys. induction xs as [|x xs IH]; intros [|y ys] H;
    try discriminate H; [now split|].
  simpl in *. destruct (IH ys) as [-> ->]; [lia | now split].
Qed.

(** The file text parses back to the series it was written from. *)
Lemma parse_csv_text (ts ys : list float) :
  length ts = length ys ->
  Forall prints_back ts -> Forall prints_back ys ->
  parse_output (csv_text ts ys) = inr (ts, ys).
Proof.
  intros Hlen Hts Hys.
  rewrite csv_text_lines by assumption.
  rewrite parse_output_join.
  - unfold parse_lines, file_lines.
    rewrite (parse_rows_merged _ (combine ts ys)).
    + simpl. now destruct (combine_fst_snd ts ys Hlen) as [-> ->].
    + apply merged_header; [reflexivity | now apply merged_rows].
  - unfold file_lines. constructor; [reflexivity | now apply rows_no_newline].
Qed.

Lemma call_solve_lengths (self : FortranODESolver) (kw : kwargs)
      (w w1 : World) (ts ys : list float) :
  call_solve self kw w = (inr (ts, ys), w1) -> length ts = length ys.
Proof.
  unfold call_solve.
  destruct (List.find (fun kv => negb (is_solve_param (fst kv))) kw)
    as [[k v]|]; [discriminate|].
  intros H. apply solve_ok_inv in H as (out & err & _ & Hp & _).
  unfold parse_output, parse_lines in Hp.
  now apply parse_rows_length in Hp.
Qed.

End RoundTripFacts.

(** C8: after a successful solve, the file [solve_to_file] writes holds the
    header row and one row per sample, and the parser reads that text back
    to the very series that was written, for a series whose floats print as
    float text that [float()] reads back unchanged. *)
Theorem solve_to_file_round_trip `{F : PyFloat} (self : FortranODESolver)
        (output_path : string) (kw : kwargs) (w w1 w' : World)
        (t_vals y_vals : list float) (p : string) :
  call_solve self kw w = (inr (t_vals, y_vals), w1) ->
  solve_to_file self output_path kw w = (inr p, w') ->
  Forall prints_back t_vals -> Forall prints_back y_vals ->
  fs w' !! p = Some (File (csv_text t_vals y_vals)) /\
  csv_text t_vals y_vals
  = PyStr.join (String NL "") (file_lines t_vals y_vals) /\
  parse_output (csv_text t_vals y_vals) = inr (t_vals, y_vals).
Proof.
  intros Hsolve Hfile Hts Hys.
  split; [|split].
  - unfold solve_to_file, bind in Hfile. rewrite Hsolve in Hfile.
    unfold write_text, ret in Hfile.
    destruct (fs w1 !! Path output_path) as [[|text]|];
      try discriminate Hfile;
      destruct (open_error w1 (Path output_path)); try discriminate Hfile;
      injection Hfile as <- <-; simpl; apply lookup_insert_eq.
  - now apply csv_text_lines.
  - apply parse_csv_text; [|assumption..].
    now apply (call_solve_lengths self kw w w1).
Qed.

Lemma solve_to_file_round_trip_witness :
  exists (w' : World) (t_vals y_vals : list DecFloat.dec),
    @solve_to_file DecFloat.model Demo.solver "out.csv" [] Demo.healthy
    = (inr "out.csv", w') /\
    t_vals = [DecFloat.of_Z 0; DecFloat.of_Z 1] /\
    fs w' !! "out.csv" = Some (File (@csv_text DecFloat.model t_vals y_vals)) /\
    @csv_text DecFloat.model t_vals y_vals
    = PyStr.join (String NL "") (@file_lines DecFloat.model t_vals y_vals) /\
    @parse_output DecFloat.model (@csv_text DecFloat.model t_vals y_vals)
    = inr (t_vals, y_vals).
Proof.
  eexists _, _, _. split; [vm_compute; reflexivity|].
  split; [reflexivity|].
  eapply (@solve_to_file_round_trip DecFloat.model Demo.solver "out.csv" []
            Demo.healthy).
  - vm_compute. reflexivity.
  - vm_compute. reflexivity.
  - repeat constructor.
  - repeat constructor.
Defined.

(** * Further properties of the wrapper *)

Section FurtherFacts.
Context {F : PyFloat}.

(** Whatever its outcome, [solve] leaves the machine as it found it, but
    for the one command it logged. *)
Lemma solve_world (self : FortranODESolver) (t0 tf y0 n_steps : pyvalue)
      (w : World) :
  snd (solve self t0 tf y0 n_steps w)
  = log_command [self.(executable_path)] w.
Proof.
  rewrite solve_cases.
  destruct (run_end_of (os_exec w (length (commands w))
                                [self.(executable_path)]) 30)
    as [cls msg| |rc out err]; [reflexivity|reflexivity|].
  destruct (rc =? 0)%Z; reflexivity.
Qed.

Lemma call_solve_cases (self : FortranODESolver) (kw : kwargs) (w : World) :
  (has_foreign_key kw = true /\
   exists msg, call_solve self kw w = (inl (Exn TypeError msg), w)) \/
  (has_foreign_key kw = false /\
   exists t0 tf y0 n_steps,
     call_solve self kw w = solve self t0 tf y0 n_steps w).
Proof.
  unfold call_solve, has_foreign_key.
  destruct (List.find (fun kv => negb (is_solve_param (fst kv))) kw)
    as [[k v]|] eqn:Hf.
  - left. split; [|unfold raise; eauto].
    apply List.find_some in Hf as [Hin Hk].
    apply List.existsb_exists. eauto.
  - right. split; [|eauto 8].
    destruct (existsb _ kw) eqn:He; [|reflexivity].
    apply List.existsb_exists in He as (kv & Hin & Hk).
    now rewrite (List.find_none _ _ Hf kv Hin) in Hk.
Qed.

(** A successful call by keywords is a successful [solve]. *)
Lemma call_solve_ok (self : FortranODESolver) (kw : kwargs) (w w1 : World)
      (r : list float * list float) :
  call_solve self kw w = (inr r, w1) ->
  (forall t0 tf y0 n_steps, fst (solve self t0 tf y0 n_steps w) = inr r) /\
  w1 = log_command [self.(executable_path)] w.
Proof.
  intros H.
  destruct (call_solve_cases self kw w)
    as [[_ [msg Hm]]|[_ (a & b & c & d & Hs)]]; [congruence|].
  rewrite Hs in H. split.
  - intros t0 tf y0 n_steps.
    rewrite solve_cases. rewrite solve_cases in H.
    now destruct (run_end_of (os_exec w (length (commands w))
                                      [self.(executable_path)]) 30)
      as [cls msg| |rc out err]; [| |destruct (rc =? 0)%Z];
      inversion H.
  - rewrite <- (solve_world self a b c d w). now rewrite H.
Qed.

Lemma call_solve_world (self : FortranODESolver) (kw : kwargs) (w : World) :
  fs (snd (call_solve self kw w)) = fs w /\
  open_error (snd (call_solve self kw w)) = open_error w /\
  os_exec (snd (call_solve self kw w)) = os_exec w /\
  children (snd (call_solve self kw w)) = children w.
Proof.
  destruct (call_solve_cases self kw w)
    as [[_ [msg ->]]|[_ (a & b & c & d & ->)]]; [now simpl|].
  now rewrite solve_world.
Qed.

End FurtherFacts.

(** X1: with no explicit path, [__init__] probes [build/ode_solver], then
    [./ode_solver] (kept as [ode_solver]), then the [build/ode_solver] next
    to the package, and the handle holds the first that exists; when none
    exists it fails with [FileNotFoundError]. *)
Theorem init_search_order (w : World) :
  Path (module_build w) = module_build w ->
  init None w =
  if path_exists w "build/ode_solver"
  then (inr {| executable_path := "build/ode_solver" |}, w)
  else if path_exists w "ode_solver"
  then (inr {| executable_path := "ode_solver" |}, w)
  else if path_exists w (module_build w)
  then (inr {| executable_path := module_build w |}, w)
  else (inl (Exn FileNotFoundError
               ("Could not find ode_solver executable. " +:+
                "Have you run 'cmake .. && cmake --build .' in the build directory?")),
        w).
Proof.
  intros Hm. unfold init, search_paths.
  change (Path "build/ode_solver") with "build/ode_solver".
  change (Path "./ode_solver") with "ode_solver".
  simpl List.find.
  destruct (path_exists w "build/ode_solver") eqn:H1.
  { change (Path "build/ode_solver") with "build/ode_solver".
    simpl. now rewrite H1. }
  destruct (path_exists w "ode_solver") eqn:H2.
  { change (Path "ode_solver") with "ode_solver". simpl. now rewrite H2. }
  destruct (path_exists w (module_build w)) eqn:H3; [|reflexivity].
  simpl. now rewrite Hm, H3.
Qed.

Lemma init_search_order_witness :
  init None Demo.healthy
  = (inr {| executable_path := "build/ode_solver" |}, Demo.healthy).
Proof.
  exact (init_search_order Demo.healthy eq_refl).
Defined.

(** X2: constructing a handle only looks at the file system: whatever the
    argument and whatever the outcome, the machine is left as it was. *)
Theorem init_leaves_machine (arg : option string) (w : World) :
  snd (init arg w) = w.
Proof.
  unfold init. destruct arg as [p|].
  - simpl. now destruct (path_exists w (Path p)).
  - destruct (List.find (path_exists w) (search_paths w)) as [p|];
      [|reflexivity].
    simpl. now destruct (path_exists w (Path p)).
Qed.

(** X3: a run that is over within the 30 seconds (the backend has exited
    and its captured pipes are at end-of-file) with a non-zero exit code
    makes [solve] fail with [RuntimeError("Fortran solver failed: " +
    stderr)], whatever was printed on stdout; and a failure with that
    message prefix only comes from such a run, the rest of the message
    being the text [subprocess.run] captured from the backend's stderr. *)
Theorem solve_process_failure `{F : PyFloat} (self : FortranODESolver)
        (t0 tf y0 n_steps : pyvalue) (w : World) (msg : string) :
  fst (solve self t0 tf y0 n_steps w)
  = inl (Exn RuntimeError ("Fortran solver failed: " +:+ msg)) <->
  exists rc out,
    run_end_of (os_exec w (length (commands w)) [self.(executable_path)]) 30
    = Finished rc out msg /\
    rc <> 0%Z.
Proof.
  rewrite solve_cases.
  destruct (run_end_of (os_exec w (length (commands w))
                                [self.(executable_path)]) 30)
    as [cls m| |rc out err].
  - split; [simpl; discriminate | intros (rc & out & H & _); discriminate H].
  - split; [simpl; discriminate | intros (rc & out & H & _); discriminate H].
  - split.
    + destruct (rc =? 0)%Z eqn:Hrc.
      * simpl. destruct (parse_output out) as [e|r] eqn:Hp; [|discriminate].
        apply parse_output_error in Hp as [m ->]. simpl. discriminate.
      * simpl. intros H. injection H as H. subst err.
        apply Z.eqb_neq in Hrc. eauto 6.
    + intros (rc' & out' & [= -> -> ->] & Hrc).
      apply Z.eqb_neq in Hrc. now rewrite Hrc.
Qed.

Lemma solve_process_failure_witness :
  fst (@solve DecFloat.model Demo.solver (Demo.f 0) (Demo.f 10) (Demo.f 1)
              (PyIntV 100) Demo2.broken)
  = inl (Exn RuntimeError ("Fortran solver failed: " +:+ "segmentation fault")).
Proof.
  apply (proj2 (@solve_process_failure DecFloat.model Demo.solver (Demo.f 0)
                  (Demo.f 10) (Demo.f 1) (PyIntV 100) Demo2.broken
                  "segmentation fault")).
  exists 3%Z, "t,y". repeat split. discriminate.
Defined.

(** X4: [solve] raises nothing but [RuntimeError]: a timeout, a failed
    process, a spawn error and a parse error all reach the caller in that
    class. *)
Theorem solve_raises_runtime_error `{F : PyFloat} (self : FortranODESolver)
        (t0 tf y0 n_steps : pyvalue) (w : World) (e : exn) :
  fst (solve self t0 tf y0 n_steps w) = inl e ->
  exists msg, e = Exn RuntimeError msg.
Proof.
  rewrite solve_cases.
  destruct (run_end_of (os_exec w (length (commands w))
                                [self.(executable_path)]) 30)
    as [cls m| |rc out err];
    [intros [= <-]; eauto|intros [= <-]; unfold timeout_error; eauto|].
  destruct (rc =? 0)%Z; [|intros [= <-]; eauto].
  simpl. destruct (parse_output out) as [e0|r] eqn:Hp; [|discriminate].
  apply parse_output_error in Hp as [m ->]. intros [= <-]. simpl. eauto.
Qed.

Lemma solve_raises_runtime_error_witness :
  exists msg,
    fst (@solve DecFloat.model Demo.solver (Demo.f 0) (Demo.f 10) (Demo.f 1)
                (PyIntV 100) Demo.garbled) = inl (Exn RuntimeError msg).
Proof.
  destruct (@solve_raises_runtime_error DecFloat.model Demo.solver (Demo.f 0)
              (Demo.f 10) (Demo.f 1) (PyIntV 100) Demo.garbled
              (Exn RuntimeError
                 "Error running Fortran solver: could not convert string to float: 'abc'")
              eq_refl) as [msg Hmsg].
  exists msg. rewrite <- Hmsg. reflexivity.
Defined.

(** X5: one solve call is one backend run, whatever the outcome: the
    machine afterwards is the machine before with the command logged once;
    no file is touched, no child is left, nothing is retried. *)
Theorem solve_runs_once `{F : PyFloat} (self : FortranODESolver)
        (t0 tf y0 n_steps : pyvalue) (w : World) :
  snd (solve self t0 tf y0 n_steps w)
  = log_command [self.(executable_path)] w /\
  fs (snd (solve self t0 tf y0 n_steps w)) = fs w /\
  length (commands (snd (solve self t0 tf y0 n_steps w)))
  = S (length (commands w)).
Proof.
  rewrite solve_world. split; [reflexivity|]. split; [reflexivity|].
  simpl. rewrite length_app. simpl. lia.
Qed.

(** X6: [solve] returns a series exactly when the run is over within the
    30 seconds (the backend has exited and its captured pipes are at
    end-of-file) with code 0 and the text [subprocess.run] captured from
    stdout parses, and the series is the parse of that text; stderr plays
    no part. *)
Theorem solve_returns_parsed_stdout `{F : PyFloat} (self : FortranODESolver)
        (t0 tf y0 n_steps : pyvalue) (w : World)
        (r : list float * list float) :
  fst (solve self t0 tf y0 n_steps w) = inr r <->
  exists out err,
    run_end_of (os_exec w (length (commands w)) [self.(executable_path)]) 30
    = Finished 0 out err /\
    parse_output out = inr r.
Proof.
  split.
  - intros H.
    destruct (solve self t0 tf y0 n_steps w) as [res w'] eqn:Hs.
    simpl in H. subst res.
    apply solve_ok_inv in Hs as (out & err & H1 & H3 & _). eauto 6.
  - intros (out & err & H1 & H3).
    rewrite solve_cases, H1. simpl. now rewrite H3.
Qed.

Lemma solve_returns_parsed_stdout_witness :
  fst (@solve DecFloat.model Demo.solver (Demo.f 0) (Demo.f 10) (Demo.f 1)
              (PyIntV 100) Demo.healthy)
  = inr ([DecFloat.of_Z 0; DecFloat.of_Z 1],
         [DecFloat.of_Z 1; DecFloat.Fin false 606531 (-6)]).
Proof.
  apply (proj2 (@solve_returns_parsed_stdout DecFloat.model Demo.solver
                  (Demo.f 0) (Demo.f 10) (Demo.f 1) (PyIntV 100) Demo.healthy
                  ([DecFloat.of_Z 0; DecFloat.of_Z 1],
                   [DecFloat.of_Z 1; DecFloat.Fin false 606531 (-6)]))).
  exists Demo.healthy_stdout, "".
  repeat split.
Defined.

Section FurtherParserFacts.
Context {F : PyFloat}.

Lemma rstrip_all_space (s : string) :
  PyStr.all_space s = true -> PyStr.rstrip s = "".
Proof.
  induction s as [|c s IH]; simpl; [reflexivity|].
  intros H. apply andb_true_iff in H as [Hc Hs].
  now rewrite IH, Hc.
Qed.

(** Values accumulated before the loop starts stay in front. *)
Lemma parse_rows_prepend (dl : list string) (ts0 ys0 ts ys : list float) :
  parse_rows dl (ts0 ++ ts) (ys0 ++ ys) =
  match parse_rows dl ts ys with
  | inl e => inl e
  | inr r => inr (ts0 ++ fst r, ys0 ++ snd r)
  end.
Proof.
  revert ts ys. induction dl as [|l dl IH]; intros ts ys; [reflexivity|].
  simpl. destruct (PyStr.split COMMA (PyStr.strip l)) as [|p0 [|p1 [|p2 r]]];
    try apply IH.
  destruct (float_of_str p0) as [m|t]; [reflexivity|].
  destruct (float_of_str p1) as [m|y]; [reflexivity|].
  rewrite <- !app_assoc. apply IH.
Qed.

Lemma parse_lines_app (a b : list string) :
  parse_lines (a ++ b) =
  match parse_lines a with
  | inl e => inl e
  | inr ra =>
      match parse_lines b with
      | inl e => inl e
      | inr rb => inr (series_app ra rb)
      end
  end.
Proof.
  unfold parse_lines. rewrite data_lines_app, parse_rows_app.
  destruct (parse_rows (data_lines a) [] []) as [e|[ta ya]]; [reflexivity|].
  pose proof (parse_rows_prepend (data_lines b) ta ya [] []) as H.
  rewrite !app_nil_r in H. rewrite H.
  now destruct (parse_rows (data_lines b) [] []).
Qed.

Lemma contains_snoc_CR (l : string) :
  no_newline l = true -> no_newline (l +:+ String CR "") = true.
Proof.
  unfold no_newline. intros H. apply negb_true_iff in H.
  induction l as [|c l IH]; [reflexivity|].
  simpl in *. apply orb_false_iff in H as [Hc Hl].
  rewrite Hc. simpl. now apply IH.
Qed.

Lemma clean_map_snoc_CR (lines : list string) :
  clean (map (fun l => l +:+ String CR "") lines) = clean lines.
Proof.
  unfold clean. induction lines as [|l lines IH]; [reflexivity|].
  simpl. rewrite strip_snoc_space by reflexivity. now rewrite IH.
Qed.

End FurtherParserFacts.

(** X7: a backend that prints nothing, or only white space, gives an empty
    series, not an error. *)
Theorem parse_blank_output `{F : PyFloat} (stdout : string) :
  PyStr.all_space stdout = true -> parse_output stdout = inr ([], []).
Proof.
  intros H. unfold parse_output, PyStr.strip.
  now rewrite rstrip_all_space.
Qed.

Lemma parse_blank_output_witness :
  @parse_output DecFloat.model (String " " (String NL (String NL (String CR ""))))
  = inr ([], []).
Proof.
  exact (@parse_blank_output DecFloat.model
           (String " " (String NL (String NL (String CR "")))) eq_refl).
Defined.

(** X8: the parser does not care whether lines end in LF or CR LF: a text
    whose lines each carry a trailing carriage return parses as the text
    without them. *)
Theorem parse_accepts_crlf `{F : PyFloat} (lines : list string) :
  Forall (fun l => no_newline l = true) lines ->
  parse_output (PyStr.join (String NL "")
                           (map (fun l => l +:+ String CR "") lines))
  = parse_output (PyStr.join (String NL "") lines).
Proof.
  intros H. rewrite !parse_output_join.
  - unfold parse_lines.
    rewrite <- (parse_rows_clean (map _ lines)), clean_map_snoc_CR.
    apply parse_rows_clean.
  - exact H.
  - apply List.Forall_map. eapply List.Forall_impl; [|exact H].
    intros l Hl. now apply contains_snoc_CR.
Qed.

Lemma parse_accepts_crlf_witness :
  @parse_output DecFloat.model
    (PyStr.join (String NL "")
       (map (fun l => l +:+ String CR "") ["t,y"; "0.5,1.0"; "1.0,2.0"; ""]))
  = @parse_output DecFloat.model
      (PyStr.join (String NL "") ["t,y"; "0.5,1.0"; "1.0,2.0"; ""]).
Proof.
  apply (@parse_accepts_crlf DecFloat.model ["t,y"; "0.5,1.0"; "1.0,2.0"; ""]).
  repeat constructor.
Defined.

(** X9: parsing goes line by line and in order: the parse of two blocks of
    lines, one after the other, is the parse of the first followed by the
    parse of the second, and the first line that raises decides the
    failure. *)
Theorem parse_output_blocks `{F : PyFloat} (a b : list string) :
  Forall (fun l => no_newline l = true) (a ++ b) ->
  parse_output (PyStr.join (String NL "") (a ++ b)) =
  match parse_output (PyStr.join (String NL "") a) with
  | inl e => inl e
  | inr ra =>
      match parse_output (PyStr.join (String NL "") b) with
      | inl e => inl e
      | inr rb => inr (series_app ra rb)
      end
  end.
Proof.
  intros H. pose proof H as Hab. apply List.Forall_app in Hab as [Ha Hb].
  rewrite !parse_output_join by assumption.
  apply parse_lines_app.
Qed.

Lemma parse_output_blocks_witness :
  @parse_output DecFloat.model
    (PyStr.join (String NL "") (["t,y"; "0.5,1.0"] ++ ["1.0,2.0"; "x,y"]))
  = inl (Exn ValueError "could not convert string to float: 'x'").
Proof.
  rewrite (@parse_output_blocks DecFloat.model ["t,y"; "0.5,1.0"]
             ["1.0,2.0"; "x,y"]); [reflexivity|].
  repeat constructor.
Defined.

(** X10: when the solve fails, [solve_to_file] passes the failure on
    unchanged and never opens the output file: the file system is as it
    was. *)
Theorem solve_to_file_solve_failure `{F : PyFloat} (self : FortranODESolver)
        (output_path : string) (kw : kwargs) (w w1 : World) (e : exn) :
  call_solve self kw w = (inl e, w1) ->
  solve_to_file self output_path kw w = (inl e, w1) /\ fs w1 = fs w.
Proof.
  intros H. split.
  - unfold solve_to_file, bind. now rewrite H.
  - destruct (call_solve_world self kw w) as [Hfs _].
    now rewrite H in Hfs.
Qed.

Lemma solve_to_file_solve_failure_witness :
  exists w1,
    @solve_to_file DecFloat.model Demo.solver "out.csv" [] Demo.hung
    = (inl timeout_error, w1) /\ fs w1 = fs Demo.hung.
Proof.
  eexists.
  apply (@solve_to_file_solve_failure DecFloat.model Demo.solver "out.csv" []
           Demo.hung).
  vm_compute. reflexivity.
Defined.

(** X11: when the solve succeeds and the target can be opened,
    [solve_to_file] returns the path, the file at that path holds the new
    text whatever was there before, and every other path is as it was
    before the call. *)
Theorem solve_to_file_writes `{F : PyFloat} (self : FortranODESolver)
        (output_path : string) (kw : kwargs) (w w1 : World)
        (t_vals y_vals : list float) :
  call_solve self kw w = (inr (t_vals, y_vals), w1) ->
  fs w !! Path output_path <> Some Dir ->
  open_error w (Path output_path) = None ->
  exists w',
    solve_to_file self output_path kw w = (inr (Path output_path), w') /\
    fs w' !! Path output_path = Some (File (csv_text t_vals y_vals)) /\
    (forall q, q <> Path output_path -> fs w' !! q = fs w !! q) /\
    commands w' = commands w ++ [[self.(executable_path)]].
Proof.
  intros Hs Hdir Hopen.
  apply call_solve_ok in Hs as Hw. destruct Hw as [_ Hw1].
  exists (store_file (Path output_path) (csv_text t_vals y_vals) w1).
  assert (Hfs : fs w1 = fs w) by now subst w1.
  assert (Hoe : open_error w1 = open_error w) by now subst w1.
  split; [|split; [|split]].
  - unfold solve_to_file, bind. rewrite Hs. unfold write_text.
    rewrite Hfs, Hoe, Hopen.
    destruct (fs w !! Path output_path) as [[|text]|]; [congruence| |];
      reflexivity.
  - simpl. apply lookup_insert_eq.
  - intros q Hq. simpl. rewrite lookup_insert_ne by congruence. now rewrite Hfs.
  - simpl. now subst w1.
Qed.

Lemma solve_to_file_writes_witness :
  exists w',
    @solve_to_file DecFloat.model Demo.solver "./out.csv" [] Demo.healthy
    = (inr (Path "./out.csv"), w') /\
    fs w' !! Path "./out.csv"
    = Some (File (@csv_text DecFloat.model
                    [DecFloat.of_Z 0; DecFloat.of_Z 1]
                    [DecFloat.of_Z 1; DecFloat.Fin false 606531 (-6)])) /\
    (forall q, q <> Path "./out.csv" -> fs w' !! q = fs Demo.healthy !! q) /\
    commands w' = commands Demo.healthy ++ [[Demo.solver.(executable_path)]].
Proof.
  apply (@solve_to_file_writes DecFloat.model Demo.solver "./out.csv" []
           Demo.healthy (after_run Demo.solver Demo.healthy)).
  - vm_compute. reflexivity.
  - vm_compute. discriminate.
  - reflexivity.
Defined.

(** X12: the backend runs before the output file is opened.  When the
    target is a directory or the system refuses to open it, [solve_to_file]
    fails only after a successful solve, with one command run and the file
    system unchanged. *)
Theorem solve_to_file_open_failure `{F : PyFloat} (self : FortranODESolver)
        (output_path : string) (kw : kwargs) (w w1 : World)
        (r : list float * list float) :
  call_solve self kw w = (inr r, w1) ->
  fs w !! Path output_path = Some Dir \/
  open_error w (Path output_path) <> None ->
  exists cls msg,
    solve_to_file self output_path kw w = (inl (Exn cls msg), w1) /\
    (cls = IsADirectoryError \/ cls = OSError) /\
    fs w1 = fs w /\
    commands w1 = commands w ++ [[self.(executable_path)]].
Proof.
  intros Hs Hbad. destruct r as [ts ys].
  apply call_solve_ok in Hs as Hw. destruct Hw as [_ Hw1].
  assert (Hfs : fs w1 = fs w) by now subst w1.
  assert (Hoe : open_error w1 = open_error w) by now subst w1.
  assert (Hc : commands w1 = commands w ++ [[self.(executable_path)]])
    by now subst w1.
  unfold solve_to_file, bind. rewrite Hs. unfold write_text.
  rewrite Hfs, Hoe.
  destruct (fs w !! Path output_path) as [[|text]|] eqn:Hl.
  - eauto 10.
  - destruct Hbad as [Hd|Ho]; [discriminate Hd|].
    destruct (open_error w (Path output_path)) as [m|]; [eauto 10|congruence].
  - destruct Hbad as [Hd|Ho]; [discriminate Hd|].
    destruct (open_error w (Path output_path)) as [m|]; [eauto 10|congruence].
Qed.

Lemma solve_to_file_open_failure_witness :
  exists cls msg,
    @solve_to_file DecFloat.model Demo.solver "build/" [] Demo.healthy
    = (inl (Exn cls msg), after_run Demo.solver Demo.healthy) /\
    (cls = IsADirectoryError \/ cls = OSError) /\
    fs (after_run Demo.solver Demo.healthy) = fs Demo.healthy /\
    commands (after_run Demo.solver Demo.healthy)
    = commands Demo.healthy ++ [[Demo.solver.(executable_path)]].
Proof.
  apply (@solve_to_file_open_failure DecFloat.model Demo.solver "build/" []
           Demo.healthy (after_run Demo.solver Demo.healthy)
           ([DecFloat.of_Z 0; DecFloat.of_Z 1],
            [DecFloat.of_Z 1; DecFloat.Fin false 606531 (-6)])).
  - vm_compute. reflexivity.
  - left. vm_compute. reflexivity.
Defined.

Section FurtherSweepFacts.
Context {F : PyFloat}.

(** Setting a key adds at most that key to the dict. *)
Lemma foreign_key_dict_set (k : string) (v : pyvalue) (d : kwargs) :
  has_foreign_key (dict_set k v d)
  = negb (is_solve_param k) || has_foreign_key d.
Proof.
  unfold has_foreign_key. induction d as [|[k' v'] d IH]; simpl.
  - now rewrite orb_false_r.
  - destruct (String.eqb k k') eqn:E; simpl.
    + apply String.eqb_eq in E. subst k'.
      now destruct (is_solve_param k), (existsb _ d).
    + rewrite IH.
      now destruct (is_solve_param k), (is_solve_param k'), (existsb _ d).
Qed.

Lemma sweep_loop_worlds (param_name : string) (values : list pyvalue)
      (solver : FortranODESolver) (base : kwargs) :
  forall (acc results : list (pyvalue * list float * list float))
         (w w' : World),
    sweep_loop param_name values solver base acc w = (inr results, w') ->
    commands w'
    = commands w ++ repeat [solver.(executable_path)] (length values) /\
    fs w' = fs w /\ children w' = children w /\ os_exec w' = os_exec w.
Proof.
  induction values as [|v values IH]; intros acc results w w' H.
  - injection H as _ <-. simpl. now rewrite app_nil_r.
  - rewrite sweep_loop_cons in H.
    destruct (call_solve solver (dict_set param_name v base) w)
      as [[e|[t y]] w1] eqn:Hc; [discriminate H|].
    apply call_solve_ok in Hc as [_ ->].
    apply IH in H as (Hcmd & Hfs & Hch & Hos).
    rewrite Hcmd, Hfs, Hch, Hos. simpl. now rewrite <- app_assoc.
Qed.

(** Under a steady backend every call returns what the first would. *)
Lemma solve_steady (self : FortranODESolver) (w w' : World)
      (a b c d a' b' c' d' : pyvalue) :
  steady w self -> os_exec w' = os_exec w ->
  fst (solve self a b c d w') = fst (solve self a' b' c' d' w).
Proof.
  intros Hst Hos. rewrite !solve_cases, Hos.
  rewrite (Hst (length (commands w')) (length (commands w))).
  destruct (run_end_of (os_exec w (length (commands w))
                                [self.(executable_path)]) 30)
    as [cls msg| |rc out err]; [reflexivity|reflexivity|].
  destruct (rc =? 0)%Z; reflexivity.
Qed.

Lemma sweep_loop_steady (param_name : string) (values : list pyvalue)
      (solver : FortranODESolver) (base : kwargs) (w0 : World)
      (P : pyvalue * list float * list float -> Prop) :
  steady w0 solver ->
  (forall v r, (forall a b c d, fst (solve solver a b c d w0) = inr r) ->
               P (v, fst r, snd r)) ->
  forall (acc results : list (pyvalue * list float * list float))
         (w w' : World),
    os_exec w = os_exec w0 ->
    Forall P acc ->
    sweep_loop param_name values solver base acc w = (inr results, w') ->
    Forall P results.
Proof.
  intros Hst HP. induction values as [|v values IH];
    intros acc results w w' Hos Hacc H.
  - injection H as <- _. exact Hacc.
  - rewrite sweep_loop_cons in H.
    destruct (call_solve solver (dict_set param_name v base) w)
      as [[e|[t y]] w1] eqn:Hc; [discriminate H|].
    apply call_solve_ok in Hc as [Hr ->].
    eapply IH; [| |exact H].
    + simpl. exact Hos.
    + apply List.Forall_app. split; [exact Hacc|]. constructor; [|constructor].
      apply (HP v (t, y)). intros a b c d.
      rewrite <- (Hr a b c d). symmetry. now apply solve_steady.
Qed.

End FurtherSweepFacts.

(** X13: the parameter name is checked by the first solve call only.  A
    name that is no parameter of [solve] (or such a key among the base
    keywords) makes a sweep over at least one value fail with [TypeError]
    before any backend run; over no value at all the sweep returns the
    empty list. *)
Theorem sweep_foreign_keyword `{F : PyFloat} (param_name : string)
        (value : pyvalue) (rest : list pyvalue)
        (solver : FortranODESolver) (base_kwargs : kwargs) (w : World) :
  negb (is_solve_param param_name) || has_foreign_key base_kwargs = true ->
  (exists msg,
      parameter_sweep param_name (value :: rest) solver base_kwargs w
      = (inl (Exn TypeError msg), w)) /\
  parameter_sweep param_name [] solver base_kwargs w = (inr [], w).
Proof.
  intros H. split; [|reflexivity].
  unfold parameter_sweep. rewrite sweep_loop_cons.
  destruct (call_solve_cases solver (dict_set param_name value base_kwargs) w)
    as [[_ [msg ->]]|[Hn _]]; [eauto|].
  rewrite foreign_key_dict_set in Hn. congruence.
Qed.

Lemma sweep_foreign_keyword_witness :
  (exists msg,
      @parameter_sweep DecFloat.model "dt" (Demo.half :: [Demo.f 1])
                       Demo.solver [] Demo.healthy
      = (inl (Exn TypeError msg), Demo.healthy)) /\
  @parameter_sweep DecFloat.model "dt" [] Demo.solver [] Demo.healthy
  = (inr [], Demo.healthy).
Proof.
  apply (@sweep_foreign_keyword DecFloat.model "dt" Demo.half [Demo.f 1]
           Demo.solver [] Demo.healthy).
  reflexivity.
Defined.

(** X14: a sweep that succeeds has run the backend once per value, each
    time as the bare executable, and has touched no file and left no
    child. *)
Theorem sweep_runs_once_per_value `{F : PyFloat} (param_name : string)
        (param_values : list pyvalue) (solver : FortranODESolver)
        (base_kwargs : kwargs) (w w' : World)
        (results : list (pyvalue * list float * list float)) :
  parameter_sweep param_name param_values solver base_kwargs w
  = (inr results, w') ->
  commands w'
  = commands w ++ repeat [solver.(executable_path)] (length param_values) /\
  fs w' = fs w /\ children w' = children w.
Proof.
  intros H. apply sweep_loop_worlds in H as (Hc & Hf & Hch & _). auto.
Qed.

Lemma sweep_runs_once_per_value_witness :
  exists (results : list (@pyvalue DecFloat.model * list DecFloat.dec
                          * list DecFloat.dec)) (w' : World),
    @parameter_sweep DecFloat.model "y0" [Demo.half; Demo.f 1; Demo.f 2]
                     Demo.solver [] Demo.healthy = (inr results, w') /\
    commands w'
    = commands Demo.healthy
      ++ repeat [Demo.solver.(executable_path)]
                (length [Demo.half; Demo.f 1; Demo.f 2]).
Proof.
  eexists _, _. split; [vm_compute; reflexivity|].
  refine (proj1 (@sweep_runs_once_per_value DecFloat.model "y0"
                   [Demo.half; Demo.f 1; Demo.f 2] Demo.solver []
                   Demo.healthy _ _ _)).
  vm_compute. reflexivity.
Defined.

(** X15: a sweep does not sweep anything.  When the backend behaves the
    same at every call, every entry of the result carries the same series,
    the one a plain solve call returns on that machine, whatever the
    parameter name and the values. *)
Theorem sweep_entries_identical `{F : PyFloat} (param_name : string)
        (param_values : list pyvalue) (solver : FortranODESolver)
        (base_kwargs : kwargs) (w w' : World)
        (results : list (pyvalue * list float * list float)) :
  steady w solver ->
  parameter_sweep param_name param_values solver base_kwargs w
  = (inr results, w') ->
  forall (value : pyvalue) (t_vals y_vals : list float),
    In (value, t_vals, y_vals) results ->
    forall t0 tf y0 n_steps : pyvalue,
      fst (solve solver t0 tf y0 n_steps w) = inr (t_vals, y_vals).
Proof.
  intros Hst H.
  pose (P := fun e : pyvalue * list float * list float =>
               forall t0 tf y0 n_steps : pyvalue,
                 fst (solve solver t0 tf y0 n_steps w)
                 = inr (snd (fst e), snd e)).
  assert (HP : Forall P results).
  { apply (sweep_loop_steady param_name param_values solver base_kwargs w P
             Hst) with (acc := []) (w := w) (w' := w');
      [|reflexivity|constructor|exact H].
    intros v [ts ys] Hr. unfold P. simpl. exact Hr. }
  intros value t_vals y_vals Hin.
  rewrite List.Forall_forall in HP. exact (HP _ Hin).
Qed.

Lemma sweep_entries_identical_witness :
  fst (@solve DecFloat.model Demo.solver (Demo.f 0) (Demo.f 10) (Demo.f 1)
              (PyIntV 100) Demo.healthy)
  = inr ([DecFloat.of_Z 0; DecFloat.of_Z 1],
         [DecFloat.of_Z 1; DecFloat.Fin false 606531 (-6)]).
Proof.
  refine (@sweep_entries_identical DecFloat.model "tf"
            [Demo.f 5; Demo.f 20] Demo.solver [] Demo.healthy _ _ _ _
            (Demo.f 20) _ _ _ (Demo.f 0) (Demo.f 10) (Demo.f 1) (PyIntV 100)).
  - intros n m. reflexivity.
  - vm_compute. reflexivity.
  - right. left. reflexivity.
Defined.



(** * The command-line layer *)

Section PathFacts.

Definition part_ok (c : string) : bool :=
  negb (String.eqb c "" || String.eqb c ".").

Definition parts_of (s : string) : list string :=
  List.filter part_ok (PyStr.split "/" s).

Definition root_of (s : string) : string :=
  if PyStr.startswith s "//" && negb (PyStr.startswith s "///") then "//"
  else if PyStr.startswith s "/" then "/" else "".

Lemma Path_unfold (s : string) :
  Path s =
  if String.eqb (root_of s +:+ PyStr.join "/" (parts_of s)) ""
  then "." else root_of s +:+ PyStr.join "/" (parts_of s).
Proof. reflexivity. Qed.

Lemma split_fields_no_sep (sep : ascii) (s : string) :
  Forall (fun x => PyStr.contains sep x = false) (PyStr.split sep s).
Proof.
  induction s as [|c s IH]; simpl; [repeat constructor|].
  destruct (Ascii.eqb c sep) eqn:E; [constructor; [reflexivity | exact IH]|].
  destruct (PyStr.split sep s) as [|h t]; [repeat constructor; simpl; now rewrite E|].
  inversion IH; subst. constructor; [|assumption].
  simpl. now rewrite E.
Qed.

Lemma parts_of_good (s : string) :
  Forall (fun x => PyStr.contains "/" x = false /\ part_ok x = true)
         (parts_of s).
Proof.
  unfold parts_of. pose proof (split_fields_no_sep "/" s) as H.
  induction H as [|x l Hx Hl IH]; simpl; [constructor|].
  destruct (part_ok x) eqn:E; [constructor; auto | exact IH].
Qed.

Lemma filter_all {A} (f : A -> bool) (l : list A) :
  Forall (fun x => f x = true) l -> List.filter f l = l.
Proof.
  induction 1 as [|x l Hx Hl IH]; simpl; [reflexivity|].
  now rewrite Hx, IH.
Qed.

Lemma join_no_leading_slash (parts : list string) :
  Forall (fun x => PyStr.contains "/" x = false /\ part_ok x = true) parts ->
  PyStr.startswith (PyStr.join "/" parts) "/" = false.
Proof.
  intros H. destruct H as [|x l [Hx Hok] Hl]; [reflexivity|].
  destruct x as [|c x]; [discriminate Hok|].
  simpl in Hx. apply orb_false_iff in Hx as [Hc _].
  destruct l; simpl; now rewrite Hc.
Qed.

Lemma parts_of_join (parts : list string) :
  Forall (fun x => PyStr.contains "/" x = false /\ part_ok x = true) parts ->
  parts_of (PyStr.join "/" parts) = parts.
Proof.
  intros H. unfold parts_of. destruct parts as [|x l]; [reflexivity|].
  rewrite (split_join "/" (x :: l)); [|discriminate|].
  - apply filter_all. eapply List.Forall_impl; [|exact H]. now intros a [_ Ha].
  - eapply List.Forall_impl; [|exact H]. now intros a [Ha _].
Qed.

Lemma root_of_cases (s : string) :
  root_of s = "" \/ root_of s = "/" \/ root_of s = "//".
Proof.
  unfold root_of.
  destruct (PyStr.startswith s "//" && negb (PyStr.startswith s "///"));
    [auto|]. destruct (PyStr.startswith s "/"); auto.
Qed.

Lemma startswith_cons (c a : ascii) (s p : string) :
  PyStr.startswith (String c s) (String a p)
  = Ascii.eqb c a && PyStr.startswith s p.
Proof. reflexivity. Qed.

Lemma startswith_nil (s : string) : PyStr.startswith s "" = true.
Proof. now destruct s. Qed.

Lemma root_of_app (r body : string) :
  r = "" \/ r = "/" \/ r = "//" ->
  PyStr.startswith body "/" = false ->
  root_of (r +:+ body) = r /\ parts_of (r +:+ body) = parts_of body.
Proof.
  intros Hr Hb.
  assert (Hc : body = "" \/
               exists c b, body = String c b /\ Ascii.eqb c "/" = false).
  { destruct body as [|c b]; [now left|]. right. exists c, b. split; [reflexivity|].
    rewrite startswith_cons, startswith_nil, andb_true_r in Hb. exact Hb. }
  destruct Hr as [->|[->| ->]]; (split; [|reflexivity]);
    destruct Hc as [->|(c & b & -> & Hc)]; try reflexivity;
    unfold root_of; simpl String.append;
    rewrite ?startswith_cons, ?startswith_nil, ?Hc; reflexivity.
Qed.

(** Normalizing a path twice changes nothing more. *)
Lemma Path_idem (s : string) : Path (Path s) = Path s.
Proof.
  rewrite (Path_unfold s).
  destruct (String.eqb (root_of s +:+ PyStr.join "/" (parts_of s)) "") eqn:E;
    [reflexivity|].
  rewrite Path_unfold.
  destruct (root_of_app (root_of s) (PyStr.join "/" (parts_of s))
              (root_of_cases s) (join_no_leading_slash _ (parts_of_good s)))
    as [-> ->].
  rewrite parts_of_join by apply parts_of_good. now rewrite E.
Qed.

Lemma path_join_normal (a name : string) :
  Path (path_join a name) = path_join a name.
Proof.
  unfold path_join. destruct (String.eqb a "."); [apply Path_idem|].
  destruct (String.eqb a "/" || String.eqb a "//"); apply Path_idem.
Qed.

End PathFacts.

Section CliFacts.
Context {F : PyFloat}.
Variable format_fixed : nat -> float -> string.

Lemma init_world (arg : option string) (w : World) : snd (init arg w) = w.
Proof.
  unfold init. destruct arg as [p|].
  - simpl. now destruct (path_exists w (Path p)).
  - destruct (List.find (path_exists w) (search_paths w)) as [p|];
      [|reflexivity].
    simpl. now destruct (path_exists w (Path p)).
Qed.

(** The two ways a [solve_to_file] call ends. *)
Lemma solve_to_file_result (self : FortranODESolver) (out : string)
      (kw : kwargs) (w : World) :
  (exists ts ys,
      solve_to_file self out kw w
      = (inr (Path out),
         store_file (Path out) (csv_text ts ys)
                    (log_command [self.(executable_path)] w))) \/
  (exists e w', solve_to_file self out kw w = (inl e, w') /\ fs w' = fs w).
Proof.
  unfold solve_to_file, bind.
  destruct (call_solve self kw w) as [[e|[ts ys]] w1] eqn:Hc.
  - right. exists e, w1. split; [reflexivity|].
    destruct (call_solve_world self kw w) as [Hfs _]. now rewrite Hc in Hfs.
  - apply call_solve_ok in Hc as [_ ->]. unfold write_text. simpl fs.
    simpl open_error.
    destruct (fs w !! Path out) as [[|text]|];
      [right; eauto | |];
      (destruct (open_error w (Path out)) as [m|];
       [right; eauto | left; eauto]).
Qed.

Lemma is_file_store (p q text : string) (w : World) :
  is_file w q = true -> is_file (store_file p text w) q = true.
Proof.
  unfold is_file. simpl. destruct (decide (p = q)) as [->|Hne].
  - now rewrite lookup_insert_eq.
  - now rewrite lookup_insert_ne.
Qed.

Lemma is_file_stored (p text : string) (w : World) :
  is_file (store_file p text w) p = true.
Proof. unfold is_file. simpl. now rewrite lookup_insert_eq. Qed.

(** What a completed [save_results] loop has done. *)
Lemma save_results_ok (solver : FortranODESolver) (out param : string)
      (results : list (pyvalue * list float * list float)) :
  forall s s' : Session,
    Cli.save_results format_fixed solver out param results s = (inr tt, s') ->
    commands (machine s')
    = commands (machine s)
      ++ repeat [solver.(executable_path)] (length results) /\
    console s' = console s /\
    (forall p, is_file (machine s) p = true -> is_file (machine s') p = true) /\
    (forall val ts ys,
        In (val, ts, ys) results ->
        is_file (machine s') (Cli.sweep_file format_fixed out param val) = true).
Proof.
  induction results as [|[[val ts0] ys0] results IH]; intros s s' H.
  - injection H as <-. simpl. rewrite app_nil_r. repeat split; auto.
  - simpl in H. unfold c_bind, on_machine in H.
    destruct (solve_to_file_result solver
                (Cli.sweep_file format_fixed out param val) [(param, val)]
                (machine s)) as [(ts & ys & Heq)|(e & w' & Heq & _)];
      rewrite Heq in H; [|discriminate H].
    apply IH in H as (Hc & Hco & Hkeep & Hfiles). simpl in Hc, Hco, Hkeep.
    split; [|split; [|split]].
    + rewrite Hc, <- app_assoc. reflexivity.
    + exact Hco.
    + intros p Hp. apply Hkeep. now apply is_file_store.
    + intros v ts' ys' [Hin|Hin].
      * injection Hin as <- _ _. apply Hkeep.
        replace (Path (Cli.sweep_file format_fixed out param val))
          with (Cli.sweep_file format_fixed out param val)
          by (symmetry; apply path_join_normal).
        apply is_file_stored.
      * now apply (Hfiles v ts' ys').
Qed.

Lemma sweep_loop_values (param_name : string) (values : list pyvalue)
      (solver : FortranODESolver) (base : kwargs) :
  forall (acc results : list (pyvalue * list float * list float))
         (w w' : World),
    sweep_loop param_name values solver base acc w = (inr results, w') ->
    map entry_value results = map entry_value acc ++ values.
Proof.
  induction values as [|v values IH]; intros acc results w w' H.
  - injection H as <- _. now rewrite app_nil_r.
  - rewrite sweep_loop_cons in H.
    destruct (call_solve solver (dict_set param_name v base) w)
      as [[e|[t y]] w1]; [discriminate H|].
    apply IH in H. rewrite H, List.map_app, <- app_assoc. reflexivity.
Qed.

Lemma floats_of_length (texts : list string) (xs : list float) :
  Cli.floats_of texts = inr xs -> length xs = length texts.
Proof.
  revert xs. induction texts as [|v texts IH]; intros xs; simpl.
  - now intros [= <-].
  - destruct (float_of_str (PyStr.strip v)); [discriminate|].
    destruct (Cli.floats_of texts) as [e|ys]; [discriminate|].
    intros [= <-]. simpl. f_equal. now apply IH.
Qed.

(** The list comprehension raises when a text is not a number. *)
Lemma floats_of_fails (texts : list string) :
  (exists v m, In v texts /\ float_of_str (PyStr.strip v) = inl m) ->
  exists m, Cli.floats_of texts = inl (Exn ValueError m).
Proof.
  induction texts as [|v texts IH]; intros (v0 & m & Hin & Hm); [destruct Hin|].
  simpl. destruct (float_of_str (PyStr.strip v)) as [m'|x] eqn:Hv; [eauto|].
  destruct Hin as [->|Hin]; [congruence|].
  destruct IH as [m' ->]; eauto.
Qed.

Lemma mkdir_parents_ok (p : string) (s s1 : Session) :
  mkdir_parents p s = (inr tt, s1) ->
  commands (machine s1) = commands (machine s) /\
  console s1 = console s /\ os_exec (machine s1) = os_exec (machine s).
Proof.
  unfold mkdir_parents. destruct (String.eqb p "."); [now intros [= <-]|].
  destruct (List.find (is_file (machine s)) (ancestors p ++ [p]));
    [discriminate|].
  destruct (mkdir_error s p); [discriminate|]. now intros [= <-].
Qed.

Lemma echo_rows_ok (rows : list (float * float)) (s : Session) :
  Cli.echo_rows format_fixed rows s
  = (inr tt,
     mkSession (machine s)
       (console s
        ++ map (fun '(t, y) => format_fixed 6 t +:+ "," +:+ format_fixed 6 y)
               rows)
       (mkdir_error s)).
Proof.
  revert s. induction rows as [|[t y] rows IH]; intros s.
  - simpl. unfold c_ret. rewrite app_nil_r. now destruct s.
  - simpl. unfold c_bind, echo. rewrite IH. simpl.
    now rewrite <- app_assoc.
Qed.

End CliFacts.

(** X16: the [sweep] command solves every value twice: once in
    [parameter_sweep], whose series it drops, and once more in
    [solve_to_file].  A run that completes over N comma-separated values
    has run the backend 2N times and printed the one line
    [Saved N results to <dir>]. *)
Theorem cli_sweep_runs_twice `{F : PyFloat}
        (format_fixed : nat -> float -> string)
        (param values output_dir : string) (s s' : Session) :
  Cli.sweep format_fixed param values output_dir s = (inr tt, s') ->
  exists solver,
    commands (machine s')
    = commands (machine s)
      ++ repeat [solver.(executable_path)]
                (2 * length (PyStr.split COMMA values)) /\
    console s'
    = console s
      ++ ["Saved " +:+ nat_str (length (PyStr.split COMMA values))
          +:+ " results to " +:+ output_dir].
Proof.
  unfold Cli.sweep, c_bind, c_lift. intros H.
  destruct (mkdir_parents (Path output_dir) s) as [[e|[]] s1] eqn:Hmk;
    [discriminate H|].
  apply mkdir_parents_ok in Hmk as (Hc1 & Hco1 & _).
  destruct (Cli.floats_of (PyStr.split COMMA values)) as [e|xs] eqn:Hxs;
    [discriminate H|].
  apply floats_of_length in Hxs.
  unfold on_machine at 1 in H.
  pose proof (init_world None (machine s1)) as Hi.
  destruct (init None (machine s1)) as [[e|solver] w2]; [discriminate H|].
  simpl in Hi. subst w2. unfold on_machine at 1 in H. simpl machine in H.
  destruct (parameter_sweep param (map PyFloatV xs) solver [] (machine s1))
    as [[e|results] w3] eqn:Hsw; [discriminate H|].
  pose proof (sweep_loop_values _ _ _ _ _ _ _ _ Hsw) as Hvals.
  apply sweep_loop_worlds in Hsw as (Hc3 & _).
  assert (Hlen : length results = length (PyStr.split COMMA values)).
  { rewrite <- Hxs, <- (length_map entry_value results), Hvals.
    simpl. now rewrite length_map. }
  rewrite length_map, Hxs in Hc3.
  destruct (Cli.save_results format_fixed solver (Path output_dir) param
              results _) as [[e|[]] s4] eqn:Hsave; [discriminate H|].
  apply save_results_ok in Hsave as (Hc4 & Hco4 & _).
  simpl in Hc4, Hco4. unfold echo in H. injection H as <-.
  exists solver. simpl. split.
  - rewrite Hc4, Hc3, Hc1, Hlen, <- app_assoc, <- List.repeat_app.
    do 2 f_equal. lia.
  - now rewrite Hco4, Hco1, Hlen.
Qed.

Lemma cli_sweep_runs_twice_witness :
  exists s' solver,
    @Cli.sweep DecFloat.model DecFixed.fixed "y0" "0.5, 1.0,2" "out/run1"
               (DecFixed.session Demo.healthy) = (inr tt, s') /\
    commands (machine s')
    = commands (machine (DecFixed.session Demo.healthy))
      ++ repeat [solver.(executable_path)]
                (2 * length (PyStr.split COMMA "0.5, 1.0,2")) /\
    console s'
    = console (DecFixed.session Demo.healthy)
      ++ ["Saved " +:+ nat_str (length (PyStr.split COMMA "0.5, 1.0,2"))
          +:+ " results to " +:+ "out/run1"].
Proof.
  eexists.
  assert (H : @Cli.sweep DecFloat.model DecFixed.fixed "y0" "0.5, 1.0,2"
                "out/run1" (DecFixed.session Demo.healthy)
              = (inr tt, snd (@Cli.sweep DecFloat.model DecFixed.fixed "y0"
                                "0.5, 1.0,2" "out/run1"
                                (DecFixed.session Demo.healthy))))
    by (vm_compute; reflexivity).
  destruct (@cli_sweep_runs_twice DecFloat.model DecFixed.fixed "y0"
              "0.5, 1.0,2" "out/run1" (DecFixed.session Demo.healthy) _ H)
    as [solver Hs].
  exists solver. split; [exact H | exact Hs].
Defined.

(** X17: the [sweep] command reads its values after it has made the output
    directory and before it looks for the solver.  When one of the
    comma-separated values is not a number, the command fails with
    [ValueError]: the directory has been made, but no backend has run and
    nothing has been printed. *)
Theorem cli_sweep_bad_value `{F : PyFloat}
        (format_fixed : nat -> float -> string)
        (param values output_dir : string) (s s1 : Session) :
  mkdir_parents (Path output_dir) s = (inr tt, s1) ->
  (exists v m, In v (PyStr.split COMMA values) /\
               float_of_str (PyStr.strip v) = inl m) ->
  (exists m,
      Cli.sweep format_fixed param values output_dir s
      = (inl (Exn ValueError m), s1)) /\
  commands (machine s1) = commands (machine s) /\
  console s1 = console s.
Proof.
  intros Hmk Hbad. destruct (floats_of_fails _ Hbad) as [m Hm].
  split.
  - exists m. unfold Cli.sweep, c_bind, c_lift. now rewrite Hmk, Hm.
  - apply mkdir_parents_ok in Hmk as (Hc & Hco & _). auto.
Qed.

Lemma cli_sweep_bad_value_witness :
  exists s1,
    (exists m,
        @Cli.sweep DecFloat.model DecFixed.fixed "y0" "0.5,,2" "out"
                   (DecFixed.session Demo.healthy)
        = (inl (Exn ValueError m), s1)) /\
    commands (machine s1) = commands (machine (DecFixed.session Demo.healthy))
    /\ console s1 = console (DecFixed.session Demo.healthy).
Proof.
  eexists.
  apply (@cli_sweep_bad_value DecFloat.model DecFixed.fixed "y0" "0.5,,2" "out"
           (DecFixed.session Demo.healthy)).
  - vm_compute. reflexivity.
  - exists "", "could not convert string to float: ''". split.
    + right. left. reflexivity.
    + reflexivity.
Defined.

(** X18: after a [sweep] command that completes, every value has its file
    [<dir>/<param>_<value to 3 decimals>.csv]; values that print alike to
    three decimals share one file. *)
Theorem cli_sweep_files `{F : PyFloat}
        (format_fixed : nat -> float -> string)
        (param values output_dir : string) (s s' : Session)
        (xs : list float) :
  Cli.sweep format_fixed param values output_dir s = (inr tt, s') ->
  Cli.floats_of (PyStr.split COMMA values) = inr xs ->
  forall x, In x xs ->
    is_file (machine s')
            (path_join (Path output_dir)
               (param +:+ "_" +:+ format_fixed 3 x +:+ ".csv")) = true.
Proof.
  unfold Cli.sweep, c_bind, c_lift. intros H Hxs x Hx.
  destruct (mkdir_parents (Path output_dir) s) as [[e|[]] s1];
    [discriminate H|].
  rewrite Hxs in H. unfold on_machine at 1 in H.
  destruct (init None (machine s1)) as [[e|solver] w2]; [discriminate H|].
  unfold on_machine at 1 in H. simpl machine in H.
  destruct (parameter_sweep param (map PyFloatV xs) solver [] w2)
    as [[e|results] w3] eqn:Hsw; [discriminate H|].
  apply sweep_loop_values in Hsw. simpl in Hsw.
  destruct (Cli.save_results format_fixed solver (Path output_dir) param
              results _) as [[e|[]] s4] eqn:Hsave; [discriminate H|].
  apply save_results_ok in Hsave as (_ & _ & _ & Hfiles).
  unfold echo in H. injection H as <-. simpl machine.
  assert (Hin : In (PyFloatV x) (map entry_value results)).
  { rewrite Hsw. now apply List.in_map. }
  apply List.in_map_iff in Hin as ([[v ts] ys] & Hv & Hin).
  unfold entry_value in Hv. simpl in Hv. subst v.
  exact (Hfiles _ _ _ Hin).
Qed.

Lemma cli_sweep_files_witness :
  is_file
    (machine (snd (@Cli.sweep DecFloat.model DecFixed.fixed "tf" "5,2.5"
                      "out/run1" (DecFixed.session Demo.healthy))))
    (path_join (Path "out/run1")
       ("tf" +:+ "_" +:+ DecFixed.fixed 3 (DecFloat.Fin false 25 (-1))
        +:+ ".csv")) = true.
Proof.
  refine (@cli_sweep_files DecFloat.model DecFixed.fixed "tf" "5,2.5"
            "out/run1" (DecFixed.session Demo.healthy) _
            [DecFloat.of_Z 5; DecFloat.Fin false 25 (-1)] _ _ _ _).
  - vm_compute. reflexivity.
  - reflexivity.
  - right. left. reflexivity.
Defined.

(** The [solve] command without an output path. *)
Lemma solve_command_stdout `{F : PyFloat}
        (format_fixed : nat -> float -> string)
        (t0 tf y0 : float) (steps : Z) (output : option string)
        (s : Session) (solver : FortranODESolver)
        (t_vals y_vals : list float) :
  output = None \/ output = Some "" ->
  fst (init None (machine s)) = inr solver ->
  fst (solve solver (PyFloatV t0) (PyFloatV tf) (PyFloatV y0) (PyIntV steps)
             (machine s)) = inr (t_vals, y_vals) ->
  exists s',
    Cli.solve format_fixed t0 tf y0 steps output s = (inr tt, s') /\
    console s'
    = console s
      ++ "t,y"
         :: map (fun '(t, y) => format_fixed 6 t +:+ "," +:+ format_fixed 6 y)
                (combine t_vals y_vals) /\
    fs (machine s') = fs (machine s) /\
    commands (machine s')
    = commands (machine s) ++ [[solver.(executable_path)]].
Proof.
  intros Hout Hi Hs.
  pose proof (init_world None (machine s)) as Hw.
  destruct (init None (machine s)) as [ri w1] eqn:Hinit.
  simpl in Hi, Hw. subst ri w1.
  pose proof (solve_world solver (PyFloatV t0) (PyFloatV tf) (PyFloatV y0)
                (PyIntV steps) (machine s)) as Hsw.
  destruct (solve solver (PyFloatV t0) (PyFloatV tf) (PyFloatV y0)
              (PyIntV steps) (machine s)) as [rs w2] eqn:Hsolve.
  simpl in Hs, Hsw. subst rs w2.
  eexists. split.
  - unfold Cli.solve, c_bind. unfold on_machine at 1. rewrite Hinit.
    destruct Hout as [-> | ->];
      unfold on_machine; simpl machine; rewrite Hsolve;
      unfold echo at 1; simpl; apply echo_rows_ok.
  - simpl. split; [|split; reflexivity]. now rewrite <- app_assoc.
Qed.

(** X19: with no output path (none given, or an empty one), the [solve]
    command prints the header [t,y] and one line per sample, each value to
    six decimals, runs the backend once and writes no file. *)
Theorem cli_solve_prints `{F : PyFloat}
        (format_fixed : nat -> float -> string)
        (t0 tf y0 : float) (steps : Z) (output : option string)
        (s : Session) (solver : FortranODESolver)
        (t_vals y_vals : list float) :
  output = None \/ output = Some "" ->
  fst (init None (machine s)) = inr solver ->
  fst (solve solver (PyFloatV t0) (PyFloatV tf) (PyFloatV y0) (PyIntV steps)
             (machine s)) = inr (t_vals, y_vals) ->
  exists s',
    Cli.solve format_fixed t0 tf y0 steps output s = (inr tt, s') /\
    console s'
    = console s
      ++ "t,y"
         :: map (fun '(t, y) => format_fixed 6 t +:+ "," +:+ format_fixed 6 y)
                (combine t_vals y_vals) /\
    fs (machine s') = fs (machine s) /\
    commands (machine s')
    = commands (machine s) ++ [[solver.(executable_path)]].
Proof.
  intros Hout Hi Hs.
  exact (solve_command_stdout format_fixed t0 tf y0 steps output s solver
           t_vals y_vals Hout Hi Hs).
Qed.

Lemma cli_solve_prints_witness :
  exists s',
    @Cli.solve DecFloat.model DecFixed.fixed (DecFloat.of_Z 0)
               (DecFloat.of_Z 10) (DecFloat.of_Z 1) 100 (Some "")
               (DecFixed.session Demo.healthy) = (inr tt, s') /\
    console s' = ["t,y"; "0.000000,1.000000"; "1.000000,0.606531"] /\
    fs (machine s') = fs Demo.healthy.
Proof.
  destruct (@cli_solve_prints DecFloat.model DecFixed.fixed (DecFloat.of_Z 0)
              (DecFloat.of_Z 10) (DecFloat.of_Z 1) 100 (Some "")
              (DecFixed.session Demo.healthy) Demo.solver
              [DecFloat.of_Z 0; DecFloat.of_Z 1]
              [DecFloat.of_Z 1; DecFloat.Fin false 606531 (-6)]
              (or_intror eq_refl) eq_refl eq_refl)
    as (s' & H1 & H2 & H3 & _).
  exists s'. split; [exact H1|]. split; [exact H2 | exact H3].
Defined.

(** X20: with an output path, the [solve] command that completes has
    written the file at that path, printed [Results saved to <path>] with
    the path as it was typed, printed no sample, and run the backend
    once. *)
Theorem cli_solve_saves `{F : PyFloat}
        (format_fixed : nat -> float -> string)
        (t0 tf y0 : float) (steps : Z) (out : string) (s s' : Session) :
  out <> "" ->
  Cli.solve format_fixed t0 tf y0 steps (Some out) s = (inr tt, s') ->
  console s' = console s ++ ["Results saved to " +:+ out] /\
  is_file (machine s') (Path out) = true /\
  exists solver,
    commands (machine s')
    = commands (machine s) ++ [[solver.(executable_path)]].
Proof.
  intros Hne H. destruct out as [|c o]; [congruence|].
  unfold Cli.solve, c_bind in H. unfold on_machine at 1 in H.
  pose proof (init_world None (machine s)) as Hw.
  destruct (init None (machine s)) as [[e|solver] w1]; [discriminate H|].
  simpl in Hw. subst w1. unfold on_machine in H. simpl machine in H.
  destruct (solve_to_file_result solver (Path (String c o))
              [("t0", PyFloatV t0); ("tf", PyFloatV tf);
               ("y0", PyFloatV y0); ("n_steps", PyIntV steps)] (machine s))
    as [(ts & ys & Heq)|(e & w' & Heq & _)];
    rewrite Heq in H; [|discriminate H].
  unfold echo in H. injection H as <-. simpl.
  rewrite Path_idem. split; [reflexivity|]. split; [apply is_file_stored|].
  now exists solver.
Qed.

Lemma cli_solve_saves_witness :
  console (snd (@Cli.solve DecFloat.model DecFixed.fixed (DecFloat.of_Z 0)
                  (DecFloat.of_Z 10) (DecFloat.of_Z 1) 100 (Some "./res.csv")
                  (DecFixed.session Demo.healthy)))
  = console (DecFixed.session Demo.healthy)
    ++ ["Results saved to " +:+ "./res.csv"].
Proof.
  refine (proj1 (@cli_solve_saves DecFloat.model DecFixed.fixed
                   (DecFloat.of_Z 0) (DecFloat.of_Z 10) (DecFloat.of_Z 1) 100
                   "./res.csv" (DecFixed.session Demo.healthy) _ _ _)).
  - discriminate.
  - vm_compute. reflexivity.
Defined.

Section CliOutputFacts.
Context {F : PyFloat}.

(** A line [a,b] of two float texts is a sample line. *)
Lemma plain_row_sample (a b : string) (x y : float) :
  float_text a = true -> float_text b = true ->
  float_of_str a = inr x -> float_of_str b = inr y ->
  well_formed (a +:+ "," +:+ b) x y /\
  header_like (a +:+ "," +:+ b) = false /\
  no_newline (a +:+ "," +:+ b) = true.
Proof.
  intros Ha Hb Hx Hy.
  assert (Hs : PyStr.strip (a +:+ "," +:+ b) = a +:+ "," +:+ b)
    by now apply strip_no_space, row_body_no_space.
  assert (Hnl : forall c, float_char c = true -> Ascii.eqb c NL = false).
  { intros c Hc. now apply float_char_plain in Hc. }
  split; [|split].
  - exists a, b. unfold fields. rewrite Hs, row_fields by assumption. auto.
  - unfold header_like. rewrite Hs. now apply row_not_header.
  - unfold no_newline. rewrite !contains_app.
    now rewrite (float_text_no NL a Hnl Ha), (float_text_no NL b Hnl Hb).
Qed.

End CliOutputFacts.

(** X21: what the [solve] command prints is what the parser reads.  The
    printed lines, joined by newlines, parse to the series of the printed
    values: each sample as [float()] reads its six-decimal text. *)
Theorem cli_solve_output_parses `{F : PyFloat}
        (format_fixed : nat -> float -> string)
        (t0 tf y0 : float) (steps : Z) (s : Session)
        (solver : FortranODESolver)
        (t_vals y_vals t_read y_read : list float) :
  console s = [] ->
  fst (init None (machine s)) = inr solver ->
  fst (solve solver (PyFloatV t0) (PyFloatV tf) (PyFloatV y0) (PyIntV steps)
             (machine s)) = inr (t_vals, y_vals) ->
  Forall2 (fun x x' => float_text (format_fixed 6 x) = true /\
                       float_of_str (format_fixed 6 x) = inr x')
          t_vals t_read ->
  Forall2 (fun x x' => float_text (format_fixed 6 x) = true /\
                       float_of_str (format_fixed 6 x) = inr x')
          y_vals y_read ->
  exists s',
    Cli.solve format_fixed t0 tf y0 steps None s = (inr tt, s') /\
    parse_output (PyStr.join (String NL "") (console s'))
    = inr (t_read, y_read).
Proof.
  intros Hcon Hi Hs Hts Hys.
  destruct (solve_command_stdout format_fixed t0 tf y0 steps None s solver
              t_vals y_vals (or_introl eq_refl) Hi Hs)
    as (s' & Hrun & Hout & _).
  exists s'. split; [exact Hrun|]. rewrite Hout, Hcon. simpl app.
  assert (Hlen : length t_vals = length y_vals).
  { destruct (solve solver (PyFloatV t0) (PyFloatV tf) (PyFloatV y0)
                (PyIntV steps) (machine s)) as [r w'] eqn:E.
    simpl in Hs. subst r.
    apply solve_ok_inv in E as (out & err & _ & Hp & _).
    unfold parse_output, parse_lines in Hp.
    now apply parse_rows_length in Hp. }
  assert (Hlen' : length t_read = length y_read).
  { apply List.Forall2_length in Hts, Hys. lia. }
  clear Hrun Hout Hi Hs Hcon Hlen.
  set (row := fun '(t, y) => format_fixed 6 t +:+ "," +:+ format_fixed 6 y).
  assert (Hrows :
    merged (fun l t y => well_formed l t y /\ header_like l = false)
           (map row (combine t_vals y_vals)) (combine t_read y_read) /\
    Forall (fun l => no_newline l = true) (map row (combine t_vals y_vals))).
  { clear Hlen'. revert y_vals y_read Hys.
    induction Hts as [|t t' ts ts' [Ht Hrt] Hts IH]; intros ys ys' Hys.
    - split; [apply merged_nil | constructor].
    - destruct Hys as [|y y' ys ys' [Hy Hry] Hys];
        [split; [apply merged_nil | constructor]|].
      destruct (IH ys ys' Hys) as [Hm Hn].
      destruct (plain_row_sample _ _ t' y' Ht Hy Hrt Hry) as (Hw & Hh & Hnl).
      simpl. split; [apply merged_sample; auto | constructor; auto]. }
  destruct Hrows as [Hm Hn].
  rewrite parse_output_join by (constructor; [reflexivity | exact Hn]).
  unfold parse_lines.
  rewrite (parse_rows_merged _ (combine t_read y_read))
    by (apply merged_header; [reflexivity | exact Hm]).
  simpl. now destruct (combine_fst_snd t_read y_read Hlen') as [-> ->].
Qed.

Lemma cli_solve_output_parses_witness :
  exists s',
    @Cli.solve DecFloat.model DecFixed.fixed (DecFloat.of_Z 0)
               (DecFloat.of_Z 10) (DecFloat.of_Z 1) 100 None
               (DecFixed.session Demo.healthy) = (inr tt, s') /\
    @parse_output DecFloat.model (PyStr.join (String NL "") (console s'))
    = inr ([DecFloat.of_Z 0; DecFloat.of_Z 1],
           [DecFloat.of_Z 1; DecFloat.Fin false 606531 (-6)]).
Proof.
  apply (@cli_solve_output_parses DecFloat.model DecFixed.fixed
           (DecFloat.of_Z 0) (DecFloat.of_Z 10) (DecFloat.of_Z 1) 100
           (DecFixed.session Demo.healthy) Demo.solver
           [DecFloat.of_Z 0; DecFloat.of_Z 1]
           [DecFloat.of_Z 1; DecFloat.Fin false 606531 (-6)]).
  - reflexivity.
  - reflexivity.
  - reflexivity.
  - repeat constructor.
  - repeat constructor.
Defined.
